(** * Simulador de detonação: the calculation chain of [app.py]

    The script computes a blast plan (spacing, charge per hole, powder
    factor, Kuz-Ram mean fragment size, uniformity index) and draws one
    Rosin-Rammler curve per drill-pattern class.  Embedded here are the
    three reference tables, the three calculation functions and the
    module-level script from the widgets down to the second chart
    (lines 12-133).  The PDF export ([gerar_pdf] and its button) only
    rasterises the two charts and is left out.

    ** Numbers

    Python floats and NumPy [float64] scalars are IEEE-754 binary64 values.
    They are embedded as [float64]: a finite value is a real number, and the
    three special values are kept apart.  Two things are idealised and are
    the same everywhere in this file: a finite result is the exact real
    result (no rounding, no overflow), and zero carries no sign (it behaves
    as [+0.0]).  What is kept is everything the script can observe besides
    the last bits: which operations produce an infinity or a NaN, which ones
    raise a Python exception, and the order in which that happens.

    Comparisons of reals do not compute, so a run on concrete numbers is
    obtained by rewriting with the lemmas of the section on finite values;
    the lists, strings and table lookups compute. *)

From Stdlib Require Import Reals Lra Lia ZArith List String Ascii Bool.
From Stdlib Require Floats.
Import ListNotations.

Local Open Scope R_scope.

(** ** binary64 values *)

Inductive float64 : Type :=
| Fin (r : R)
| PInf
| NInf
| NaN.

Declare Scope f64_scope.
Delimit Scope f64_scope with f64.
Bind Scope f64_scope with float64.

Definition fopp (a : float64) : float64 :=
  match a with
  | Fin x => Fin (- x)
  | PInf => NInf
  | NInf => PInf
  | NaN => NaN
  end.

Definition fadd (a b : float64) : float64 :=
  match a, b with
  | NaN, _ | _, NaN => NaN
  | Fin x, Fin y => Fin (x + y)
  | PInf, NInf | NInf, PInf => NaN
  | PInf, _ | _, PInf => PInf
  | NInf, _ | _, NInf => NInf
  end.

Definition fsub (a b : float64) : float64 := fadd a (fopp b).

(** The infinity whose sign is the sign of the non-zero real [x]. *)
Definition inf_like (x : R) : float64 :=
  if Rlt_dec 0 x then PInf else NInf.

Definition fmul (a b : float64) : float64 :=
  match a, b with
  | NaN, _ | _, NaN => NaN
  | Fin x, Fin y => Fin (x * y)
  | Fin x, PInf | PInf, Fin x =>
      if Req_dec_T x 0 then NaN else inf_like x
  | Fin x, NInf | NInf, Fin x =>
      if Req_dec_T x 0 then NaN else inf_like (- x)
  | PInf, PInf | NInf, NInf => PInf
  | PInf, NInf | NInf, PInf => NInf
  end.

(** [/] of a NumPy [float64] scalar (also taken when only one operand is
    one: [np.float64] subclasses [float] and its reflected method wins).
    Dividing by zero is no exception, only a [RuntimeWarning]: the result
    is an infinity, or NaN for [0/0]. *)
Definition np_truediv (a b : float64) : float64 :=
  match a, b with
  | NaN, _ | _, NaN => NaN
  | Fin x, Fin y =>
      if Req_dec_T y 0
      then (if Req_dec_T x 0 then NaN else inf_like x)
      else Fin (x / y)
  | Fin _, PInf | Fin _, NInf => Fin 0
  | PInf, Fin y => if Rlt_dec y 0 then NInf else PInf
  | NInf, Fin y => if Rlt_dec y 0 then PInf else NInf
  | PInf, PInf | PInf, NInf | NInf, PInf | NInf, NInf => NaN
  end.

(** Whether a real is an integer, an odd one. *)
Definition is_integer (y : R) : bool :=
  if Req_dec_T y (IZR (Int_part y)) then true else false.

Definition is_odd_integer (y : R) : bool :=
  is_integer y && Z.odd (Int_part y).

(** C's [pow] on finite operands with a non-zero exponent [y]. *)
Definition pow_finite (x y : R) : float64 :=
  if Rlt_dec 0 x then Fin (Rpower x y)
  else if Req_dec_T x 0 then (if Rlt_dec 0 y then Fin 0 else PInf)
  else if is_integer y then Fin (powerRZ x (Int_part y))
  else NaN.

(** [**] of a NumPy [float64] scalar and [np.power] on arrays, element by
    element: C's [pow] with its special values (C99 F.10.4.4). *)
Definition np_power (a b : float64) : float64 :=
  match a, b with
  | Fin x, Fin y =>
      if Req_dec_T y 0 then Fin 1
      else if Req_dec_T x 1 then Fin 1
      else pow_finite x y
  | PInf, Fin y =>
      if Req_dec_T y 0 then Fin 1
      else if Rlt_dec 0 y then PInf else Fin 0
  | NInf, Fin y =>
      if Req_dec_T y 0 then Fin 1
      else if Rlt_dec 0 y
           then (if is_odd_integer y then NInf else PInf)
           else Fin 0
  | NaN, Fin y => if Req_dec_T y 0 then Fin 1 else NaN
  | Fin x, PInf =>
      if Req_dec_T (Rabs x) 1 then Fin 1
      else if Rlt_dec (Rabs x) 1 then Fin 0 else PInf
  | Fin x, NInf =>
      if Req_dec_T (Rabs x) 1 then Fin 1
      else if Rlt_dec (Rabs x) 1 then PInf else Fin 0
  | Fin x, NaN => if Req_dec_T x 1 then Fin 1 else NaN
  | PInf, PInf | NInf, PInf => PInf
  | PInf, NInf | NInf, NInf => Fin 0
  | NaN, _ | _, NaN => NaN
  end.

Definition np_exp (a : float64) : float64 :=
  match a with
  | Fin x => Fin (exp x)
  | PInf => PInf
  | NInf => Fin 0
  | NaN => NaN
  end.

Definition np_cos (a : float64) : float64 :=
  match a with
  | Fin x => Fin (cos x)
  | _ => NaN
  end.

(** [np.radians]: degrees to radians. *)
Definition np_radians (a : float64) : float64 :=
  fmul a (Fin (PI / 180)).

Infix "+" := fadd : f64_scope.
Infix "-" := fsub : f64_scope.
Infix "*" := fmul : f64_scope.
Infix "/" := np_truediv : f64_scope.
Notation "- x" := (fopp x) : f64_scope.
Notation "x ** y" := (np_power x y)
  (at level 30, right associativity) : f64_scope.

(** ** Python's own float operations

    Where both operands are plain Python floats (or ints) the interpreter's
    [float] methods run, and they differ from NumPy's in two places the
    script reaches: dividing by zero raises, and a negative base raised to a
    fractional power leaves the floats. *)

Inductive py_exception : Type :=
| ZeroDivisionError
| KeyError.

(** How a Python computation ends: with a value, with an exception, or with
    a complex number ([float.__pow__] of a negative base and a fractional
    exponent returns one in Python 3).  Complex arithmetic is not embedded:
    [Complex] only records that the floats were left at that point. *)
Inductive outcome (A : Type) : Type :=
| Ok (a : A)
| Raise (e : py_exception)
| Complex.

Arguments Ok {A} a.
Arguments Raise {A} e.
Arguments Complex {A}.

(** [float.__truediv__]: [ZeroDivisionError] on a zero divisor, IEEE
    division otherwise. *)
Definition py_truediv (a b : float64) : outcome float64 :=
  match b with
  | Fin y => if Req_dec_T y 0 then Raise ZeroDivisionError
             else Ok (np_truediv a b)
  | _ => Ok (np_truediv a b)
  end.

(** [float.__pow__]: as C's [pow], except that [0.0 ** y] raises for a
    finite negative [y] and that a finite negative base with a fractional
    exponent gives a complex number. *)
Definition py_pow (a b : float64) : outcome float64 :=
  match a, b with
  | Fin x, Fin y =>
      if Req_dec_T y 0 then Ok (Fin 1)
      else if Req_dec_T x 0
           then (if Rlt_dec y 0 then Raise ZeroDivisionError else Ok (Fin 0))
           else if Rlt_dec x 0
                then (if is_integer y then Ok (np_power a b) else Complex)
                else Ok (np_power a b)
  | _, _ => Ok (np_power a b)
  end.

(** ** The Streamlit page

    The script runs top to bottom and writes to the page as it goes; an
    uncaught exception stops it and leaves what was written before.  Only
    the elements that carry computed data are kept (titles, subheaders, the
    input widgets and the column layout are not), and a formatted number is kept as the value
    that is formatted. *)

Inductive campo : Type :=
| ComprimentoRealDoFuro
| CargaPorFuro
| EspacamentoCalculado
| MassaTotalDeExplosivo
| RazaoDeCarga
| TamanhoMedioX50.

(** One [ax.plot] call: its legend label, if any, and its points. *)
Record serie : Type := mk_serie {
  rotulo : option string;
  pontos : list (float64 * float64)
}.

Inductive elemento : Type :=
| info (c : campo) (valor : float64)
| info_furos (n_furos : Z)
| success (c : campo) (valor : float64)
| pyplot (fig : list serie).

Definition pagina : Type := list elemento.

(** The script as a computation: it threads the page and may stop. *)
Definition St (A : Type) : Type := pagina -> pagina * outcome A.

Definition ret {A : Type} (a : A) : St A := fun p => (p, Ok a).

Definition bind {A B : Type} (m : St A) (k : A -> St B) : St B :=
  fun p =>
    match m p with
    | (p', Ok a) => k a p'
    | (p', Raise e) => (p', Raise e)
    | (p', Complex) => (p', Complex)
    end.

Definition lift {A : Type} (o : outcome A) : St A := fun p => (p, o).

(** Sequencing of plain Python expressions that may raise. *)
Definition obind {A B : Type} (o : outcome A) (k : A -> outcome B)
  : outcome B :=
  match o with
  | Ok a => k a
  | Raise e => Raise e
  | Complex => Complex
  end.

Definition write (e : elemento) : St unit := fun p => (p ++ [e], Ok tt).

Declare Scope st_scope.
Delimit Scope st_scope with st.
Notation "x <- m ;; k" := (bind m (fun x => k))
  (at level 61, m at next level, right associativity) : st_scope.
Notation "m ;; k" := (bind m (fun _ => k))
  (at level 61, right associativity) : st_scope.

Declare Scope outcome_scope.
Delimit Scope outcome_scope with out.
Notation "x <- m ;; k" := (obind m (fun x => k))
  (at level 61, m at next level, right associativity) : outcome_scope.

(** ** Reference tables (lines 12-30)

    Python dicts keep insertion order, and the sweep iterates [malha] in
    that order: the tables are association lists. *)

Local Open Scope string_scope.

Definition explosivos : list (string * float64) :=
  [ ("ANFO", Fin 0.90);
    ("Dinamite granulada", Fin 1.1);
    ("Dinamite gelatina", Fin 1.4);
    ("Lama encartuchada", Fin 1.2) ].

Definition macicos : list (string * float64) :=
  [ ("Rocha friável de baixa dureza", Fin 3);
    ("Rocha branda e pouco fraturada", Fin 5);
    ("Rocha dura e altamente fraturada", Fin 10);
    ("Rocha altamente dura e pouco fraturada", Fin 12) ].

Definition malha : list (string * float64) :=
  [ ("Aberta", Fin 6.5);
    ("Fechada", Fin 3) ].

(** [d[k]]: the value, or [KeyError]. *)
Fixpoint getitem (d : list (string * float64)) (k : string)
  : outcome float64 :=
  match d with
  | [] => Raise KeyError
  | (k', v) :: d' => if String.eqb k k' then Ok v else getitem d' k
  end.

Definition keys (d : list (string * float64)) : list string := map fst d.

(** ** Calculation functions (lines 35-47) *)

Local Open Scope f64_scope.

Definition calcular_espacamento (H B : float64) : float64 :=
  Fin 0.23 * (H + Fin 2 * B).

(** [calcular_espacamento] uses [+] and [*] only, which binary64 rounds
    correctly: on the kernel's floats it is the Python function bit for
    bit, a check of the idealisation where one can be computed. *)
Module Binary64.
Import PrimFloat.
#[local] Set Warnings "-inexact-float".

Definition calcular_espacamento_b64 (H B : float) : float :=
  (0.23 * (H + 2 * B))%float.
End Binary64.

(** [np.pi] *)
Definition np_pi : float64 := Fin PI.

(** The two divisions are by the literals 10 and 1000 and the power is by
    the literal 2, so Python's and NumPy's operators agree on them. *)
Definition calcular_qe (densidade diametro altura_total : float64)
  : float64 :=
  let diametro_cm := diametro / Fin 10 in
  let area_cm2 := (np_pi / Fin 4) * diametro_cm ** Fin 2 in
  let massa_linear_g_cm := area_cm2 * densidade in
  let comprimento_cm := altura_total * Fin 100 in
  let massa_total_g := massa_linear_g_cm * comprimento_cm in
  massa_total_g / Fin 1000.

(** Every call passes NumPy scalars for [K] and [Qe] (both descend from
    [np.cos]), so the two powers are NumPy's. *)
Definition calcular_x50 (A K Qe : float64) : float64 :=
  A * (K ** Fin (-0.8)) * (Qe ** Fin (1 / 6)).

(** ** The blast plan (lines 59-80) *)

Definition subperf : float64 := Fin 0.6.
Definition inclinacao : float64 := Fin 15.
Definition inclinacao_rad : float64 := np_radians inclinacao.
Definition diametro : float64 := Fin 76.2.

Module Plano.
Record t : Type := mk {
  altura_total : float64;
  S : float64;
  Qe : float64;
  n_furos : Z;
  massa_total : float64;
  V : float64;
  K : float64;
  X50 : float64;
  X50_mm : float64
}.
End Plano.

(** [altura_total] and everything computed from it is a NumPy scalar;
    [S] and [V] are Python floats.  No operation here can raise:
    [K = Qe / V] is NumPy's division. *)
Definition plano_de_fogo (A densidade afastamento altura : float64)
    (furos_linha linhas : Z) : Plano.t :=
  let altura_total := (altura + subperf) / np_cos inclinacao_rad in
  let S := calcular_espacamento altura afastamento in
  let Qe := calcular_qe densidade diametro altura_total in
  let n_furos := (furos_linha * linhas)%Z in
  let massa_total := Qe * Fin (IZR n_furos) in
  let V := S * afastamento * altura in
  let K := Qe / V in
  let X50 := calcular_x50 A K Qe in
  let X50_mm := X50 * Fin 10 in
  Plano.mk altura_total S Qe n_furos massa_total V K X50 X50_mm.

(** ** The hole grid (lines 94-98) *)

Definition range (n : Z) : list Z := map Z.of_nat (seq 0 (Z.to_nat n)).

Definition plano_malha (S afastamento : float64) (furos_linha linhas : Z)
  : list serie :=
  flat_map
    (fun i =>
       map (fun j =>
              let x := Fin (IZR j) * S in
              let y := Fin (IZR i) * afastamento in
              mk_serie None [(x, y)])
           (range furos_linha))
    (range linhas).

(** ** The uniformity index (lines 106-109)

    [afastamento / D] divides by the constant 76.2 and [/ 2] by a literal.
    [S / afastamento] and [W / afastamento] are Python divisions, the
    square root is Python's [** 0.5], and [L / altura] is NumPy's ([L] is
    [altura_total]).  Operands are evaluated left to right. *)
Definition indice_uniformidade (afastamento S altura altura_total : float64)
  : outcome float64 :=
  let D := diametro in
  let W := Fin 0.1 in
  let L := altura_total in
  let f1 := Fin 2.2 - Fin 14 * (afastamento / D) in
  (q <- py_truediv S afastamento ;;
   f2 <- py_pow (Fin 1 + q / Fin 2) (Fin 0.5) ;;
   w <- py_truediv W afastamento ;;
   Ok (f1 * f2 * ((Fin 1 - w) * (L / altura))))%out.

(** Line 109 as the script evaluates it: on the plan's spacing, with the
    hole length as the charge length [L]. *)
Definition n_do_plano (p : Plano.t) (afastamento altura : float64)
  : outcome float64 :=
  indice_uniformidade afastamento (Plano.S p) altura (Plano.altura_total p).

(** ** The sweep over [malha] (lines 114-125) *)

(** [np.linspace(start, stop, num)] then [10 ** y]: sample [i] is
    [start + i * step] with [step = (stop - start) / (num - 1)] (NumPy
    stores [stop] itself in the last sample, which is the same real). *)
Definition np_logspace (start stop : R) (num : nat) : list float64 :=
  map (fun i =>
         Fin 10 ** Fin (start + INR i * ((stop - start) / INR (num - 1))))
      (seq 0 num).

(** Lines 123-124 at one sieve opening [x] of the array [x_mm]. *)
Definition passante (x X50_temp n : float64) : float64 :=
  let R_x := np_exp (Fin (-0.693) * (x / X50_temp) ** n) in
  Fin 100 * (Fin 1 - R_x).

(** Lines 119-121: recomputed for each entry of [malha]. *)
Definition K_temp (Qe altura B : float64) : float64 :=
  let S_temp := calcular_espacamento altura B in
  let V_temp := S_temp * B * altura in
  Qe / V_temp.

(** Line 122, with the three lines before it. *)
Definition X50_temp (A K Qe altura B : float64) : float64 :=
  let K_temp := K_temp Qe altura B in
  calcular_x50 A K Qe * Fin 10.

(** One turn of the loop: the curve plotted for the entry [(nome, props)]. *)
Definition curva (A K Qe altura n : float64) (x_mm : list float64)
    (item : string * float64) : serie :=
  let (nome, B) := item in
  let X50_temp := X50_temp A K Qe altura B in
  let P := map (fun x => passante x X50_temp n) x_mm in
  mk_serie (Some ("Malha " ++ nome)%string) (combine x_mm P).

Definition x_mm : list float64 := np_logspace 0 4 100.

Definition curvas (A K Qe altura n : float64) : list serie :=
  map (curva A K Qe altura n x_mm) malha.

(** ** The script (lines 54-133) *)

Record entrada : Type := mk_entrada {
  explosivo_tipo : string;
  macico_tipo : string;
  malha_tipo : string;
  altura : R;
  furos_linha : Z;
  linhas : Z
}.

(** What the widgets can return: a key of the table offered, a slider
    value within its bounds. *)
Definition entrada_valida (e : entrada) : Prop :=
  In (explosivo_tipo e) (keys explosivos) /\
  In (macico_tipo e) (keys macicos) /\
  In (malha_tipo e) (keys malha) /\
  (2 <= altura e <= 15)%R /\
  (1 <= furos_linha e <= 8)%Z /\
  (1 <= linhas e <= 5)%Z.

(** Lines 61-133, once the three table lookups have given [A], the burden
    [afastamento] and [densidade]. *)
Definition simulador (A afastamento densidade altura : float64)
    (furos_linha linhas : Z) : St unit :=
  (let p := plano_de_fogo A densidade afastamento altura
              furos_linha linhas in
   write (info ComprimentoRealDoFuro (Plano.altura_total p)) ;;
   write (info CargaPorFuro (Plano.Qe p)) ;;
   write (info EspacamentoCalculado (Plano.S p)) ;;
   write (info_furos (Plano.n_furos p)) ;;
   write (info MassaTotalDeExplosivo (Plano.massa_total p)) ;;
   write (info RazaoDeCarga (Plano.K p)) ;;
   write (success TamanhoMedioX50 (Plano.X50_mm p)) ;;
   write (pyplot (plano_malha (Plano.S p) afastamento furos_linha linhas)) ;;
   n <- lift (n_do_plano p afastamento altura) ;;
   write (pyplot (curvas A (Plano.K p) (Plano.Qe p) altura n)))%st.

Definition script (e : entrada) : St unit :=
  (A <- lift (getitem macicos (macico_tipo e)) ;;
   afastamento <- lift (getitem malha (malha_tipo e)) ;;
   densidade <- lift (getitem explosivos (explosivo_tipo e)) ;;
   simulador A afastamento densidade (Fin (altura e))
     (furos_linha e) (linhas e))%st.

(** The page an evaluation writes when nothing goes wrong. *)
Definition pagina_completa (A afastamento altura : float64)
    (furos_linha linhas : Z) (p : Plano.t) (n : float64) : pagina :=
  [ info ComprimentoRealDoFuro (Plano.altura_total p);
    info CargaPorFuro (Plano.Qe p);
    info EspacamentoCalculado (Plano.S p);
    info_furos (Plano.n_furos p);
    info MassaTotalDeExplosivo (Plano.massa_total p);
    info RazaoDeCarga (Plano.K p);
    success TamanhoMedioX50 (Plano.X50_mm p);
    pyplot (plano_malha (Plano.S p) afastamento furos_linha linhas);
    pyplot (curvas A (Plano.K p) (Plano.Qe p) altura n) ].

(** The page left when the uniformity index cannot be computed: the
    readouts and the hole grid are already there. *)
Definition pagina_interrompida (afastamento : float64)
    (furos_linha linhas : Z) (p : Plano.t) : pagina :=
  [ info ComprimentoRealDoFuro (Plano.altura_total p);
    info CargaPorFuro (Plano.Qe p);
    info EspacamentoCalculado (Plano.S p);
    info_furos (Plano.n_furos p);
    info MassaTotalDeExplosivo (Plano.massa_total p);
    info RazaoDeCarga (Plano.K p);
    success TamanhoMedioX50 (Plano.X50_mm p);
    pyplot (plano_malha (Plano.S p) afastamento furos_linha linhas) ].

(** The page the script leaves and how it ended, from an empty page. *)
Definition run (e : entrada) : pagina * outcome unit := script e [].

(** The page as first loaded: every widget at its default (a select box
    at its first option, the sliders at 10.0, 5 and 4). *)
Definition entrada_inicial : entrada :=
  mk_entrada "ANFO" "Rocha friável de baixa dureza" "Aberta" 10 5 4.

(** ** The formulas as the specification words them

    Over the reals, where every quantity is finite and in its domain. *)

Module Spec.
Local Open Scope R_scope.

Definition spacing (H B : R) : R := 0.23 * (H + 2 * B).

Definition charge_mass (density_g_cm3 diameter_mm hole_length_m : R) : R :=
  let d_cm := diameter_mm / 10 in
  let area := PI / 4 * d_cm ^ 2 in
  let linear_density := area * density_g_cm3 in
  let length_cm := hole_length_m * 100 in
  let mass_g := linear_density * length_cm in
  mass_g / 1000.

Definition hole_length_total (H : R) : R :=
  (H + 0.6) / cos (15 * (PI / 180)).

Definition mean_fragment_size (A K Qe : R) : R :=
  A * Rpower K (- 0.8) * Rpower Qe (1 / 6).

Definition uniformity_index
    (burden spacing diameter hole_deviation charge_length bench_height : R)
  : R :=
  (2.2 - 14 * (burden / diameter))
  * sqrt (1 + (spacing / burden) / 2)
  * ((1 - hole_deviation / burden) * (charge_length / bench_height)).

(** [b ^ n] for a base [b >= 0] and an exponent [n > 0]. *)
Definition pow_real (b n : R) : R :=
  if Req_dec_T b 0 then 0 else Rpower b n.

Definition percent_passing (x X50 n : R) : R :=
  100 * (1 - exp (- 0.693 * pow_real (x / X50) n)).
End Spec.

(** ** The PDF export (lines 135-166)

    [gerar_pdf] talks to three collaborators: FPDF, Matplotlib's
    [savefig] and the file system.  What is embedded is what the function
    itself decides: the order of the calls, the temporary files it creates
    and removes, the document it assembles, and that it catches nothing.
    The collaborators are kept abstract in two ways.  A rasterised chart
    is kept as the chart it shows, and the encoded document as the list of
    FPDF operations.  Which temporary name the system hands out and which
    call raises are given by the environment. *)

Inductive arquivo : Type :=
| Vazio
| Png (fig : list serie).

(** The files on disk, by name. *)
Definition disco : Type := list (string * arquivo).

Definition nomes (d : disco) : list string := map fst d.

Fixpoint ler (d : disco) (nome : string) : option arquivo :=
  match d with
  | [] => None
  | (k, a) :: d' => if String.eqb nome k then Some a else ler d' nome
  end.

Definition apagar (nome : string) (d : disco) : disco :=
  filter (fun item => negb (String.eqb nome (fst item))) d.

(** Open for writing: the file is created, or truncated and rewritten. *)
Definition escrever (nome : string) (a : arquivo) (d : disco) : disco :=
  (nome, a) :: apagar nome d.

Inductive pdf_op : Type :=
| PdfAddPage
| PdfSetFont (family style : string) (size : Z)
| PdfCell (w h : Z) (txt : string) (ln : bool) (align : string)
| PdfLn (h : Z)
| PdfImage (fig : list serie) (x w : Z).

(** The calls of [gerar_pdf] that can raise, in source order. *)
Inductive chamada : Type :=
| c_FPDF
| c_add_page_1
| c_set_font_1
| c_cell_1
| c_ln
| c_tmp_fogo
| c_savefig_fogo
| c_image_fogo
| c_add_page_2
| c_set_font_2
| c_cell_2
| c_tmp_granulo
| c_savefig_granulo
| c_image_granulo
| c_output
| c_encode
| c_remove_fogo
| c_remove_granulo.

Record ambiente : Type := mk_ambiente {
  nome_temp : disco -> string;
  levanta : chamada -> bool
}.

(** [NamedTemporaryFile] opens its file exclusively: the name it picks is
    not on disk. *)
Definition fresco (amb : ambiente) : Prop :=
  forall d : disco, ~ In (nome_temp amb d) (nomes d).

(** A call returns, or the exception it raised leaves [gerar_pdf] (there
    is no [try]); the disk is what it is at that point. *)
Inductive retorno (A : Type) : Type :=
| Devolve (a : A)
| Levanta (c : chamada).

Arguments Devolve {A} a.
Arguments Levanta {A} c.

Definition Io (A : Type) : Type := disco -> disco * retorno A.

Definition io_ret {A : Type} (a : A) : Io A := fun d => (d, Devolve a).

Definition io_bind {A B : Type} (m : Io A) (k : A -> Io B) : Io B :=
  fun d =>
    match m d with
    | (d', Devolve a) => k a d'
    | (d', Levanta c) => (d', Levanta c)
    end.

Declare Scope io_scope.
Delimit Scope io_scope with io.
Notation "x <- m ;; k" := (io_bind m (fun x => k))
  (at level 61, m at next level, right associativity) : io_scope.
Notation "m ;; k" := (io_bind m (fun _ => k))
  (at level 61, right associativity) : io_scope.

(** The call [c] of a collaborator: it raises when the environment says
    so, before any effect, and otherwise does [m]. *)
Definition externo {A : Type} (amb : ambiente) (c : chamada) (m : Io A)
  : Io A :=
  fun d => if levanta amb c then (d, Levanta c) else m d.

(** A method of the FPDF object: one more operation in the document. *)
Definition pdf_call (amb : ambiente) (c : chamada) (pdf : list pdf_op)
    (op : pdf_op) : Io (list pdf_op) :=
  externo amb c (io_ret (pdf ++ [op])%list).

(** [tempfile.NamedTemporaryFile(delete=False, suffix=".png")]: a new,
    empty file; leaving the [with] block closes it and keeps it. *)
Definition named_temporary_file (amb : ambiente) (c : chamada) : Io string :=
  externo amb c
    (fun d => let nome := nome_temp amb d in ((nome, Vazio) :: d, Devolve nome)).

(** [fig.savefig(nome, format='png')] *)
Definition savefig (amb : ambiente) (c : chamada) (fig : list serie)
    (nome : string) : Io unit :=
  externo amb c (fun d => (escrever nome (Png fig) d, Devolve tt)).

(** [pdf.image(nome, x, w)]: the file is read when the call is made; a
    missing file or one that holds no image raises. *)
Definition pdf_image (amb : ambiente) (c : chamada) (pdf : list pdf_op)
    (nome : string) (x w : Z) : Io (list pdf_op) :=
  externo amb c
    (fun d =>
       match ler d nome with
       | Some (Png fig) => (d, Devolve (pdf ++ [PdfImage fig x w])%list)
       | Some Vazio | None => (d, Levanta c)
       end).

(** [os.remove(nome)]: raises when there is no such file. *)
Definition os_remove (amb : ambiente) (c : chamada) (nome : string)
  : Io unit :=
  externo amb c
    (fun d =>
       match ler d nome with
       | Some _ => (apagar nome d, Devolve tt)
       | None => (d, Levanta c)
       end).

Definition gerar_pdf (amb : ambiente) (fig_fogo fig_granulo : list serie)
  : Io (list pdf_op) :=
  (pdf <- externo amb c_FPDF (io_ret []) ;;
   pdf <- pdf_call amb c_add_page_1 pdf PdfAddPage ;;
   pdf <- pdf_call amb c_set_font_1 pdf (PdfSetFont "Arial" "" 12) ;;
   pdf <- pdf_call amb c_cell_1 pdf
            (PdfCell 200 10 "Relatório Técnico - Plano de Fogo" true "C") ;;
   pdf <- pdf_call amb c_ln pdf (PdfLn 10) ;;
   tmp_fogo <- named_temporary_file amb c_tmp_fogo ;;
   savefig amb c_savefig_fogo fig_fogo tmp_fogo ;;
   pdf <- pdf_image amb c_image_fogo pdf tmp_fogo 10 180 ;;
   pdf <- pdf_call amb c_add_page_2 pdf PdfAddPage ;;
   pdf <- pdf_call amb c_set_font_2 pdf (PdfSetFont "Arial" "B" 12) ;;
   pdf <- pdf_call amb c_cell_2 pdf
            (PdfCell 200 10 "Distribuição Granulométrica (Rosin-Rammler):"
               true "") ;;
   tmp_granulo <- named_temporary_file amb c_tmp_granulo ;;
   savefig amb c_savefig_granulo fig_granulo tmp_granulo ;;
   pdf <- pdf_image amb c_image_granulo pdf tmp_granulo 10 180 ;;
   pdf_output <- externo amb c_output (io_ret pdf) ;;
   pdf_output <- externo amb c_encode (io_ret pdf_output) ;;
   os_remove amb c_remove_fogo tmp_fogo ;;
   os_remove amb c_remove_granulo tmp_granulo ;;
   io_ret pdf_output)%io.

(** The document of a successful export. *)
Definition relatorio (fig_fogo fig_granulo : list serie) : list pdf_op :=
  [ PdfAddPage;
    PdfSetFont "Arial" "" 12;
    PdfCell 200 10 "Relatório Técnico - Plano de Fogo" true "C";
    PdfLn 10;
    PdfImage fig_fogo 10 180;
    PdfAddPage;
    PdfSetFont "Arial" "B" 12;
    PdfCell 200 10 "Distribuição Granulométrica (Rosin-Rammler):" true "";
    PdfImage fig_granulo 10 180 ]%string.

(** The calls made once the first temporary file exists. *)
Definition depois_do_primeiro_temp (c : chamada) : bool :=
  match c with
  | c_FPDF | c_add_page_1 | c_set_font_1 | c_cell_1 | c_ln | c_tmp_fogo =>
      false
  | _ => true
  end.

(** The place of a call in the order [gerar_pdf] makes them. *)
Definition posicao (c : chamada) : nat :=
  match c with
  | c_FPDF => 0
  | c_add_page_1 => 1
  | c_set_font_1 => 2
  | c_cell_1 => 3
  | c_ln => 4
  | c_tmp_fogo => 5
  | c_savefig_fogo => 6
  | c_image_fogo => 7
  | c_add_page_2 => 8
  | c_set_font_2 => 9
  | c_cell_2 => 10
  | c_tmp_granulo => 11
  | c_savefig_granulo => 12
  | c_image_granulo => 13
  | c_output => 14
  | c_encode => 15
  | c_remove_fogo => 16
  | c_remove_granulo => 17
  end.

(** An environment for examples: a name longer than every name on disk,
    and the calls listed in [falhas] raise. *)
Definition nome_longo (d : disco) : string :=
  string_of_list_ascii
    (repeat "t"%char (S (list_max (map String.length (nomes d))))).

Definition chamada_eqb (a b : chamada) : bool :=
  match a, b with
  | c_FPDF, c_FPDF | c_add_page_1, c_add_page_1
  | c_set_font_1, c_set_font_1 | c_cell_1, c_cell_1 | c_ln, c_ln
  | c_tmp_fogo, c_tmp_fogo | c_savefig_fogo, c_savefig_fogo
  | c_image_fogo, c_image_fogo | c_add_page_2, c_add_page_2
  | c_set_font_2, c_set_font_2 | c_cell_2, c_cell_2
  | c_tmp_granulo, c_tmp_granulo | c_savefig_granulo, c_savefig_granulo
  | c_image_granulo, c_image_granulo | c_output, c_output
  | c_encode, c_encode | c_remove_fogo, c_remove_fogo
  | c_remove_granulo, c_remove_granulo => true
  | _, _ => false
  end.

Definition ambiente_exemplo (falhas : list chamada) : ambiente :=
  mk_ambiente nome_longo (fun c => existsb (chamada_eqb c) falhas).



(** * Proofs *)

(** ** Arithmetic on finite values *)

(** Settle the next comparison of reals the goal branches on; the branch
    that contradicts the hypotheses is closed. *)
Ltac real_case :=
  match goal with
  | |- context [Req_dec_T ?a ?b] =>
      destruct (Req_dec_T a b); try lra; try congruence
  | |- context [Rlt_dec ?a ?b] =>
      destruct (Rlt_dec a b); try lra; try congruence
  end.

Section FiniteArithmetic.
Local Open Scope R_scope.

Lemma np_truediv_fin (x y : R) :
  y <> 0 -> np_truediv (Fin x) (Fin y) = Fin (x / y).
Proof. intros Hy. unfold np_truediv. now real_case. Qed.

Lemma np_truediv_zero (x : R) :
  0 < x -> np_truediv (Fin x) (Fin 0) = PInf.
Proof. intros Hx. unfold np_truediv, inf_like. now repeat real_case. Qed.

Lemma py_truediv_fin (a : float64) (y : R) :
  y <> 0 -> py_truediv a (Fin y) = Ok (np_truediv a (Fin y)).
Proof. intros Hy. unfold py_truediv. now real_case. Qed.

Lemma py_truediv_zero (a : float64) :
  py_truediv a (Fin 0) = Raise ZeroDivisionError.
Proof. unfold py_truediv. now real_case. Qed.

Lemma Rpower_one_l (y : R) : Rpower 1 y = 1.
Proof. unfold Rpower. now rewrite ln_1, Rmult_0_r, exp_0. Qed.

Lemma np_power_pos (x y : R) :
  0 < x -> np_power (Fin x) (Fin y) = Fin (Rpower x y).
Proof.
  intros Hx. unfold np_power, pow_finite.
  destruct (Req_dec_T y 0) as [-> | Hy]; [now rewrite Rpower_O |].
  destruct (Req_dec_T x 1) as [-> | Hx1]; [now rewrite Rpower_one_l |].
  now repeat real_case.
Qed.

Lemma np_power_zero (y : R) :
  0 < y -> np_power (Fin 0) (Fin y) = Fin 0.
Proof. intros Hy. unfold np_power, pow_finite. now repeat real_case. Qed.

(** NumPy's power on a base [b >= 0] with an exponent [n > 0]. *)
Lemma np_power_nonneg (b n : R) :
  0 <= b -> 0 < n -> np_power (Fin b) (Fin n) = Fin (Spec.pow_real b n).
Proof.
  intros Hb Hn. unfold Spec.pow_real.
  destruct (Req_dec_T b 0) as [-> | Hb0].
  - now apply np_power_zero.
  - apply np_power_pos. lra.
Qed.

Lemma np_power_PInf_neg (y : R) :
  y < 0 -> np_power PInf (Fin y) = Fin 0.
Proof. intros Hy. unfold np_power. now repeat real_case. Qed.

Lemma Rpower_2 (x : R) : 0 < x -> Rpower x 2 = x * x.
Proof.
  intros Hx. change 2 with (INR 2). rewrite Rpower_pow by assumption.
  simpl. ring.
Qed.

Lemma np_power_two (x : R) : np_power (Fin x) (Fin 2) = Fin (x ^ 2).
Proof.
  unfold np_power, pow_finite.
  destruct (Req_dec_T 2 0) as [E | _]; [lra |].
  destruct (Req_dec_T x 1) as [-> | _]; [f_equal; ring |].
  destruct (Rlt_dec 0 x) as [Hx | Hx].
  - rewrite Rpower_2 by assumption. f_equal; ring.
  - destruct (Req_dec_T x 0) as [-> | _].
    + destruct (Rlt_dec 0 2) as [_ | N]; [f_equal; ring | lra].
    + assert (HI : Int_part 2 = 2%Z) by (symmetry; apply Int_part_spec; lra).
      unfold is_integer. rewrite HI.
      destruct (Req_dec_T 2 2) as [_ | N]; [| contradiction N; reflexivity].
      reflexivity.
Qed.

Lemma Rpower_half (x : R) : 0 < x -> Rpower x 0.5 = sqrt x.
Proof.
  intros Hx. replace 0.5 with (/ 2) by lra. now apply Rpower_sqrt.
Qed.

Lemma Rpower_pos (x y : R) : 0 < Rpower x y.
Proof. unfold Rpower. apply exp_pos. Qed.

(** Python's square root by [** 0.5] of a base that is not negative. *)
Lemma py_pow_half (x : R) :
  0 <= x -> py_pow (Fin x) (Fin 0.5) = Ok (Fin (sqrt x)).
Proof.
  intros Hx. unfold py_pow.
  destruct (Req_dec_T 0.5 0) as [E | _]; [lra |].
  destruct (Req_dec_T x 0) as [-> | Hx0].
  - destruct (Rlt_dec 0.5 0) as [E | _]; [lra |]. now rewrite sqrt_0.
  - destruct (Rlt_dec x 0) as [E | _]; [lra |].
    rewrite np_power_pos by lra. now rewrite Rpower_half by lra.
Qed.

Lemma cos_inclinacao_pos : 0 < cos (15 * (PI / 180)).
Proof.
  pose proof PI_RGT_0 as HPI.
  apply cos_gt_0; lra.
Qed.

Lemma np_cos_inclinacao_rad :
  np_cos inclinacao_rad = Fin (cos (15 * (PI / 180))).
Proof. reflexivity. Qed.
End FiniteArithmetic.

(** ** The calculation functions on finite arguments *)

Section Formulas.
Local Open Scope R_scope.

Lemma calcular_espacamento_fin (H B : R) :
  calcular_espacamento (Fin H) (Fin B) = Fin (Spec.spacing H B).
Proof. reflexivity. Qed.

Lemma calcular_qe_fin (densidade d L : R) :
  calcular_qe (Fin densidade) (Fin d) (Fin L)
  = Fin (Spec.charge_mass densidade d L).
Proof.
  unfold calcular_qe, np_pi, Spec.charge_mass.
  rewrite (np_truediv_fin d 10) by lra.
  rewrite np_power_two.
  rewrite (np_truediv_fin PI 4) by lra.
  cbn [fmul].
  now rewrite np_truediv_fin by lra.
Qed.

Lemma calcular_x50_fin (A K Qe : R) :
  0 < K -> 0 < Qe ->
  calcular_x50 (Fin A) (Fin K) (Fin Qe)
  = Fin (Spec.mean_fragment_size A K Qe).
Proof.
  intros HK HQ. unfold calcular_x50, Spec.mean_fragment_size.
  now rewrite !np_power_pos by assumption.
Qed.

Lemma charge_mass_pos (densidade d L : R) :
  0 < densidade -> d <> 0 -> 0 < L -> 0 < Spec.charge_mass densidade d L.
Proof.
  intros Hd Hdi HL. unfold Spec.charge_mass.
  pose proof PI_RGT_0 as HPI.
  assert (H2 : 0 < (d / 10) ^ 2).
  { assert (Hn : d / 10 <> 0) by (intros E; apply Hdi; lra).
    apply Rsqr_pos_lt in Hn. unfold Rsqr in Hn. simpl. lra. }
  assert (H3 : 0 < PI / 4 * (d / 10) ^ 2) by
    (apply Rmult_lt_0_compat; [lra | exact H2]).
  assert (H4 : 0 < PI / 4 * (d / 10) ^ 2 * densidade) by
    (apply Rmult_lt_0_compat; assumption).
  assert (H5 : 0 < PI / 4 * (d / 10) ^ 2 * densidade * (L * 100)) by
    (apply Rmult_lt_0_compat; [assumption | lra]).
  lra.
Qed.

Lemma hole_length_total_pos (H : R) :
  - 0.6 < H -> 0 < Spec.hole_length_total H.
Proof.
  intros HH. unfold Spec.hole_length_total.
  apply Rdiv_lt_0_compat; [lra | apply cos_inclinacao_pos].
Qed.

Lemma mean_fragment_size_pos (A K Qe : R) :
  0 < A -> 0 < Spec.mean_fragment_size A K Qe.
Proof.
  intros HA. unfold Spec.mean_fragment_size.
  repeat apply Rmult_lt_0_compat; auto using Rpower_pos.
Qed.

(** The blast plan of finite inputs for which the rock volume per hole
    is positive: every field is finite and is the specification's value. *)
Lemma plano_de_fogo_fin (A densidade B H : R) (fl li : Z) :
  let L := Spec.hole_length_total H in
  let S := Spec.spacing H B in
  let Qe := Spec.charge_mass densidade 76.2 L in
  let V := S * B * H in
  let X50 := Spec.mean_fragment_size A (Qe / V) Qe in
  0 < densidade -> - 0.6 < H -> 0 < V ->
  plano_de_fogo (Fin A) (Fin densidade) (Fin B) (Fin H) fl li
  = Plano.mk (Fin L) (Fin S) (Fin Qe) (fl * li)
      (Fin (Qe * IZR (fl * li))) (Fin V) (Fin (Qe / V))
      (Fin X50) (Fin (X50 * 10)).
Proof.
  intros L S Qe V X50 Hd HH HV.
  assert (HL : 0 < L) by now apply hole_length_total_pos.
  assert (HQ : 0 < Qe) by (apply charge_mass_pos; lra).
  unfold plano_de_fogo.
  rewrite np_cos_inclinacao_rad.
  unfold subperf. cbn [fadd].
  rewrite np_truediv_fin by (pose proof cos_inclinacao_pos; lra).
  fold (Spec.hole_length_total H). fold L.
  rewrite calcular_espacamento_fin. fold S.
  unfold diametro. rewrite calcular_qe_fin. fold Qe.
  cbn [fmul]. fold V.
  rewrite np_truediv_fin by lra.
  rewrite calcular_x50_fin; [| apply Rdiv_lt_0_compat |]; try assumption.
  reflexivity.
Qed.
End Formulas.

(** ** Spacing *)

(** C8. [calcular_espacamento] is [0.23 * (H + 2 * B)] for all finite [H]
    and [B], of either sign (nothing is checked or clamped); at [H = 10],
    [B = 6.5] the result is within [1e-9] of [5.29]. *)
Theorem calcular_espacamento_formula :
  (forall H B : R,
     calcular_espacamento (Fin H) (Fin B) = Fin (0.23 * (H + 2 * B))%R) /\
  (exists s : R,
     calcular_espacamento (Fin 10) (Fin 6.5) = Fin s /\
     (Rabs (s - 5.29) <= 1e-9)%R).
Proof.
  split.
  - intros H B. reflexivity.
  - exists (0.23 * (10 + 2 * 6.5))%R. split; [reflexivity |].
    replace (0.23 * (10 + 2 * 6.5) - 5.29)%R with 0%R by lra.
    rewrite Rabs_R0. lra.
Qed.

(** ** Charge per hole *)

Lemma PI_bounds : (3.1415 < PI < 3.1421)%R.
Proof.
  pose proof (PI_2_3_7_ineq 1) as [Hlo Hhi].
  unfold sum_f_R0, tg_alt, PI_2_3_7_tg, Ratan_seq in Hlo, Hhi.
  simpl in Hlo, Hhi.
  split; lra.
Qed.

(** C4. [calcular_qe] follows the unit chain: diameter mm to cm,
    area [pi/4 * d^2] in cm2, linear density [area * density] in g/cm,
    length m to cm by [* 100], mass in g, divided by 1000 to kg; and
    [calcular_qe(0.90, 76.2, 10.68)] is within [0.05] of [43.83]. *)
Theorem calcular_qe_unit_chain :
  (forall densidade d L : R,
     calcular_qe (Fin densidade) (Fin d) (Fin L)
     = Fin (PI / 4 * (d / 10) ^ 2 * densidade * (L * 100) / 1000)%R) /\
  (exists q : R,
     calcular_qe (Fin 0.90) (Fin 76.2) (Fin 10.68) = Fin q /\
     (Rabs (q - 43.83) <= 0.05)%R).
Proof.
  split.
  - intros densidade d L. now rewrite calcular_qe_fin.
  - eexists. split; [apply calcular_qe_fin |].
    unfold Spec.charge_mass.
    pose proof PI_bounds as [Hlo Hhi].
    apply Rabs_le. simpl. split; lra.
Qed.

(** ** Uniformity index *)

Lemma indice_uniformidade_fin (B S H L : R) :
  (B <> 0 -> H <> 0 -> 0 <= 1 + S / B / 2 ->
   indice_uniformidade (Fin B) (Fin S) (Fin H) (Fin L)
   = Ok (Fin (Spec.uniformity_index B S 76.2 0.1 L H)))%R.
Proof.
  intros HB HH Hbase.
  unfold indice_uniformidade, diametro, Spec.uniformity_index.
  rewrite (np_truediv_fin B 76.2) by lra.
  rewrite (py_truediv_fin (Fin S) B) by assumption.
  rewrite np_truediv_fin by assumption.
  cbn [obind].
  rewrite np_truediv_fin by lra.
  cbn [fadd]. rewrite py_pow_half by assumption.
  cbn [obind].
  rewrite py_truediv_fin by assumption.
  rewrite !np_truediv_fin by assumption.
  reflexivity.
Qed.

Lemma indice_uniformidade_zero_burden (S altura L : float64) :
  indice_uniformidade (Fin 0) S altura L = Raise ZeroDivisionError.
Proof.
  unfold indice_uniformidade. now rewrite py_truediv_zero.
Qed.

Lemma plano_altura_total (A densidade B : float64) (H : R) (fl li : Z) :
  Plano.altura_total (plano_de_fogo A densidade B (Fin H) fl li)
  = Fin (Spec.hole_length_total H).
Proof.
  unfold plano_de_fogo. cbn [Plano.altura_total].
  rewrite np_cos_inclinacao_rad. unfold subperf. cbn [fadd].
  rewrite np_truediv_fin by (pose proof cos_inclinacao_pos; lra).
  reflexivity.
Qed.

Lemma plano_S (A densidade : float64) (B H : R) (fl li : Z) :
  Plano.S (plano_de_fogo A densidade (Fin B) (Fin H) fl li)
  = Fin (Spec.spacing H B).
Proof. reflexivity. Qed.

Lemma n_do_plano_fin (A densidade : float64) (B H : R) (fl li : Z) :
  (B <> 0 -> H <> 0 -> 0 <= 1 + Spec.spacing H B / B / 2 ->
   n_do_plano (plano_de_fogo A densidade (Fin B) (Fin H) fl li)
     (Fin B) (Fin H)
   = Ok (Fin (Spec.uniformity_index B (Spec.spacing H B) 76.2 0.1
                (Spec.hole_length_total H) H)))%R.
Proof.
  intros HB HH Hbase. unfold n_do_plano.
  rewrite plano_altura_total, plano_S.
  now apply indice_uniformidade_fin.
Qed.

(** C3. The uniformity index of the script is
    [(2.2 - 14*(B/D)) * sqrt(1 + (S/B)/2) * ((1 - W/B) * (L/H))] with the
    diameter [D = 76.2] in mm next to [B], [S], [L], [H] in m, the
    deviation [W = 0.1] fixed, and it is called with the plan's spacing
    and with the hole length [altura_total] as the charge length. *)
Theorem indice_uniformidade_formula (A densidade B H : R) (fl li : Z) :
  (B <> 0 -> H <> 0 -> 0 <= 1 + Spec.spacing H B / B / 2 ->
   let p := plano_de_fogo (Fin A) (Fin densidade) (Fin B) (Fin H) fl li in
   exists S L : R,
     Plano.S p = Fin S /\
     Plano.altura_total p = Fin L /\
     n_do_plano p (Fin B) (Fin H)
     = Ok (Fin ((2.2 - 14 * (B / 76.2))
                * sqrt (1 + (S / B) / 2)
                * ((1 - 0.1 / B) * (L / H)))))%R.
Proof.
  intros HB HH Hbase p.
  exists (Spec.spacing H B), (Spec.hole_length_total H).
  split; [apply plano_S |].
  split; [apply plano_altura_total |].
  unfold p. now rewrite n_do_plano_fin.
Qed.

Lemma indice_uniformidade_formula_witness :
  let p := plano_de_fogo (Fin 3) (Fin 0.90) (Fin 6.5) (Fin 10) 5 4 in
  exists S L : R,
    Plano.S p = Fin S /\
    Plano.altura_total p = Fin L /\
    n_do_plano p (Fin 6.5) (Fin 10)
    = Ok (Fin ((2.2 - 14 * (6.5 / 76.2))
               * sqrt (1 + (S / 6.5) / 2)
               * ((1 - 0.1 / 6.5) * (L / 10)))%R).
Proof.
  apply (indice_uniformidade_formula 3 0.90 6.5 10 5 4);
    unfold Spec.spacing; lra.
Defined.

(** The catalog burdens. *)
Lemma malha_burdens (nome : string) (B : float64) :
  In (nome, B) malha -> B = Fin 6.5 \/ B = Fin 3.
Proof.
  intros [E | [E | []]]; inversion E; auto.
Qed.

Lemma uniformity_index_pos (B H : R) :
  (B = 6.5 \/ B = 3 -> 2 <= H <= 15 ->
   0 < Spec.uniformity_index B (Spec.spacing H B) 76.2 0.1
         (Spec.hole_length_total H) H)%R.
Proof.
  intros HB HH. unfold Spec.uniformity_index.
  assert (HBpos : (0 < B)%R) by (destruct HB; lra).
  assert (HS : (0 < Spec.spacing H B)%R) by (unfold Spec.spacing; lra).
  assert (HL : (0 < Spec.hole_length_total H)%R)
    by (apply hole_length_total_pos; lra).
  assert (Hq : (0 < Spec.spacing H B / B)%R)
    by (apply Rdiv_lt_0_compat; assumption).
  apply Rmult_lt_0_compat; [apply Rmult_lt_0_compat |].
  - destruct HB; subst B; lra.
  - apply sqrt_lt_R0. lra.
  - apply Rmult_lt_0_compat.
    + destruct HB; subst B; lra.
    + apply Rdiv_lt_0_compat; lra.
Qed.

(** C10. For both catalog burdens and every bench height in [[2, 15]],
    with [D = 76.2], [W = 0.1] and the plan's spacing and hole length,
    the uniformity index is a finite, strictly positive number: the
    exponent of every curve is positive without the clamp. *)
Theorem indice_uniformidade_positive
    (nome : string) (B : float64) (A densidade H : R) (fl li : Z) :
  In (nome, B) malha -> (2 <= H <= 15)%R ->
  exists n : R,
    n_do_plano (plano_de_fogo (Fin A) (Fin densidade) B (Fin H) fl li)
      B (Fin H) = Ok (Fin n) /\
    (0 < n)%R.
Proof.
  intros Hin HH.
  assert (HB : exists b : R, B = Fin b /\ (b = 6.5 \/ b = 3)%R).
  { destruct (malha_burdens _ _ Hin) as [-> | ->]; eexists; split;
      try reflexivity; auto. }
  destruct HB as (b & -> & Hb).
  assert (Hbpos : (0 < b)%R) by (destruct Hb; lra).
  assert (Hq : (0 < Spec.spacing H b / b)%R).
  { apply Rdiv_lt_0_compat; [unfold Spec.spacing; lra | assumption]. }
  eexists. split.
  - apply n_do_plano_fin; lra.
  - now apply uniformity_index_pos.
Qed.

Lemma indice_uniformidade_positive_witness :
  exists n : R,
    n_do_plano (plano_de_fogo (Fin 3) (Fin 0.90) (Fin 6.5) (Fin 10) 5 4)
      (Fin 6.5) (Fin 10) = Ok (Fin n) /\
    (0 < n)%R.
Proof.
  apply (indice_uniformidade_positive "Aberta" (Fin 6.5) 3 0.90 10 5 4).
  - left. reflexivity.
  - lra.
Defined.

(** ** Rosin-Rammler passing fraction *)

Section PercentPassing.
Local Open Scope R_scope.

Lemma passante_fin (x X50 n : R) :
  0 <= x -> 0 < X50 -> 0 < n ->
  passante (Fin x) (Fin X50) (Fin n) = Fin (Spec.percent_passing x X50 n).
Proof.
  intros Hx HX Hn. unfold passante, Spec.percent_passing.
  rewrite np_truediv_fin by lra.
  rewrite np_power_nonneg; try assumption.
  - reflexivity.
  - apply Rmult_le_pos; [assumption |].
    apply Rlt_le, Rinv_0_lt_compat; assumption.
Qed.

Lemma pow_real_nonneg (b n : R) : 0 <= Spec.pow_real b n.
Proof.
  unfold Spec.pow_real. destruct (Req_dec_T b 0); [lra |].
  apply Rlt_le, Rpower_pos.
Qed.

Lemma pow_real_incr (a b n : R) :
  0 <= a <= b -> 0 < n -> Spec.pow_real a n <= Spec.pow_real b n.
Proof.
  intros [Ha Hab] Hn. unfold Spec.pow_real.
  destruct (Req_dec_T a 0) as [-> | Ha0].
  - destruct (Req_dec_T b 0); [lra | apply Rlt_le, Rpower_pos].
  - destruct (Req_dec_T b 0) as [-> | Hb0]; [lra |].
    apply Rle_Rpower_l; lra.
Qed.

Lemma pow_real_one (n : R) : Spec.pow_real 1 n = 1.
Proof. unfold Spec.pow_real. real_case. apply Rpower_one_l. Qed.

Lemma pow_real_zero (n : R) : Spec.pow_real 0 n = 0.
Proof. unfold Spec.pow_real. now real_case. Qed.

Lemma exp_le_mono (a b : R) : a <= b -> exp a <= exp b.
Proof.
  intros [Hlt | ->]; [left; now apply exp_increasing | right; reflexivity].
Qed.

Lemma percent_passing_range (x X50 n : R) :
  0 <= Spec.percent_passing x X50 n <= 100.
Proof.
  unfold Spec.percent_passing.
  pose proof (pow_real_nonneg (x / X50) n) as Hp.
  pose proof (exp_pos (- 0.693 * Spec.pow_real (x / X50) n)) as Hpos.
  assert (Hle : exp (- 0.693 * Spec.pow_real (x / X50) n) <= 1).
  { rewrite <- exp_0. apply exp_le_mono. nra. }
  lra.
Qed.

Lemma percent_passing_incr (x y X50 n : R) :
  0 < X50 -> 0 < n -> 0 <= x <= y ->
  Spec.percent_passing x X50 n <= Spec.percent_passing y X50 n.
Proof.
  intros HX Hn [Hx Hxy]. unfold Spec.percent_passing.
  assert (Hi : 0 < / X50) by now apply Rinv_0_lt_compat.
  assert (Hq : 0 <= x / X50 <= y / X50) by (unfold Rdiv; nra).
  pose proof (pow_real_incr _ _ n Hq Hn) as Hp.
  assert (He : exp (- 0.693 * Spec.pow_real (y / X50) n)
               <= exp (- 0.693 * Spec.pow_real (x / X50) n))
    by (apply exp_le_mono; lra).
  lra.
Qed.

Lemma exp_INR_mult (k : nat) (x : R) : exp (INR k * x) = exp x ^ k.
Proof.
  induction k as [| k IH].
  - simpl. rewrite Rmult_0_l. apply exp_0.
  - rewrite S_INR, Rmult_plus_distr_r, Rmult_1_l, exp_plus, IH.
    simpl. ring.
Qed.

(** [(1 + x/k)^k <= exp x] whenever the base is not negative. *)
Lemma exp_lower_pow (k : nat) (c x : R) :
  INR k = c -> 0 < c -> 0 <= 1 + x / c -> (1 + x / c) ^ k <= exp x.
Proof.
  intros Hk Hc Hb.
  replace (exp x) with (exp (INR k * (x / c)))
    by (f_equal; rewrite Hk; field; lra).
  rewrite exp_INR_mult.
  apply pow_incr. split; [assumption | apply exp_ineq1_le].
Qed.

Lemma INR_512 : INR 512 = 512.
Proof. rewrite INR_IZR_INZ. reflexivity. Qed.

Lemma exp_minus_0693_bounds : 0.4998 < exp (- 0.693) < 0.5004.
Proof.
  split.
  - apply Rlt_le_trans with ((1 + - 0.693 / 512) ^ 512).
    + lra.
    + apply exp_lower_pow; [apply INR_512 | lra | lra].
  - assert (Hlo : 1.9985 < exp 0.693).
    { apply Rlt_le_trans with ((1 + 0.693 / 512) ^ 512).
      - lra.
      - apply exp_lower_pow; [apply INR_512 | lra | lra]. }
    replace (exp (- 0.693)) with (/ exp 0.693)
      by (rewrite <- exp_Ropp; f_equal; lra).
    apply Rlt_trans with (/ 1.9985); [| lra].
    apply Rinv_lt_contravar; [| exact Hlo].
    pose proof (exp_pos 0.693). nra.
Qed.
End PercentPassing.

(** C5. For fixed [X50 > 0] and [n > 0] the passing percentage computed in
    lines 123-124 is [100 * (1 - exp (-0.693 * (x/X50)^n))], it does not
    decrease when the sieve opening grows over [x >= 0], and it lies in
    [[0, 100]]. *)
Theorem passante_monotone (X50 n x y : R) :
  (0 < X50 -> 0 < n -> 0 <= x -> x <= y ->
   exists p q : R,
     passante (Fin x) (Fin X50) (Fin n) = Fin p /\
     passante (Fin y) (Fin X50) (Fin n) = Fin q /\
     p = 100 * (1 - exp (- 0.693 * Spec.pow_real (x / X50) n)) /\
     q = 100 * (1 - exp (- 0.693 * Spec.pow_real (y / X50) n)) /\
     p <= q /\ 0 <= p <= 100 /\ 0 <= q <= 100)%R.
Proof.
  intros HX Hn Hx Hxy.
  exists (Spec.percent_passing x X50 n), (Spec.percent_passing y X50 n).
  repeat split; try reflexivity;
    try (apply passante_fin; lra);
    try apply percent_passing_range.
  apply percent_passing_incr; try assumption. lra.
Qed.

Lemma passante_monotone_witness :
  exists p q : R,
    passante (Fin 50) (Fin 100) (Fin 1) = Fin p /\
    passante (Fin 200) (Fin 100) (Fin 1) = Fin q /\
    (p = 100 * (1 - exp (- 0.693 * Spec.pow_real (50 / 100) 1)) /\
     q = 100 * (1 - exp (- 0.693 * Spec.pow_real (200 / 100) 1)) /\
     p <= q /\ 0 <= p <= 100 /\ 0 <= q <= 100)%R.
Proof.
  apply (passante_monotone 100 1 50 200); lra.
Defined.

(** C6. For every [X50 > 0] and [n > 0], at the opening [x = X50] the
    passing percentage is [100 * (1 - exp (-0.693))], which is 50.0 to one
    decimal place; and at [x = 0] it is 0. *)
Theorem passante_at_X50 (X50 n : R) :
  (0 < X50 -> 0 < n ->
   passante (Fin X50) (Fin X50) (Fin n) = Fin (100 * (1 - exp (- 0.693))) /\
   49.95 < 100 * (1 - exp (- 0.693)) < 50.05 /\
   passante (Fin 0) (Fin X50) (Fin n) = Fin 0)%R.
Proof.
  intros HX Hn. split; [| split].
  - rewrite passante_fin by lra. unfold Spec.percent_passing.
    replace (X50 / X50)%R with 1%R by (field; lra).
    now rewrite pow_real_one, Rmult_1_r.
  - pose proof exp_minus_0693_bounds. lra.
  - rewrite passante_fin by lra. unfold Spec.percent_passing.
    replace (0 / X50)%R with 0%R by (field; lra).
    rewrite pow_real_zero, Rmult_0_r, exp_0. f_equal. ring.
Qed.

Lemma passante_at_X50_witness :
  passante (Fin 100) (Fin 100) (Fin 1.5)
  = Fin (100 * (1 - exp (- 0.693)))%R /\
  (49.95 < 100 * (1 - exp (- 0.693)) < 50.05)%R /\
  passante (Fin 0) (Fin 100) (Fin 1.5) = Fin 0.
Proof.
  apply (passante_at_X50 100 1.5); lra.
Defined.

(** ** The sweep *)

Lemma map_fst_combine_map {A B : Type} (f : A -> B) (l : list A) :
  map fst (combine l (map f l)) = l.
Proof.
  induction l as [| a l IH]; simpl; [reflexivity | now rewrite IH].
Qed.

Lemma nth_map_seq {A : Type} (g : nat -> A) (len i : nat) (d : A) :
  (i < len)%nat -> nth i (map g (seq 0 len)) d = g i.
Proof.
  intros Hi.
  rewrite (nth_indep _ d (g 0%nat)) by (now rewrite length_map, length_seq).
  rewrite map_nth, seq_nth by assumption. reflexivity.
Qed.

(** The sieve openings: sample [i] is [10 ^ (4 i / 99)]. *)
Lemma x_mm_samples :
  x_mm = map (fun i => Fin (Rpower 10 (INR i * (4 / 99)))) (seq 0 100).
Proof.
  unfold x_mm, np_logspace. apply map_ext. intros i.
  rewrite np_power_pos by lra. do 2 f_equal.
  replace (INR (100 - 1)) with 99%R by (rewrite INR_IZR_INZ; reflexivity).
  lra.
Qed.

Lemma length_x_mm : List.length x_mm = 100%nat.
Proof. unfold x_mm, np_logspace. now rewrite length_map, length_seq. Qed.

Section Sweep.
(** The values the loop reads from the script: none of them changes
    from one entry to the next. *)
Variables A K Qe altura n : float64.

Lemma pontos_curva (item : string * float64) :
  pontos (curva A K Qe altura n x_mm item)
  = combine x_mm
      (map (fun x => passante x (calcular_x50 A K Qe * Fin 10) n) x_mm).
Proof. destruct item as [nome B]. reflexivity. Qed.

Lemma in_curvas (s : serie) :
  In s (curvas A K Qe altura n) ->
  exists item, In item malha /\ s = curva A K Qe altura n x_mm item.
Proof.
  unfold curvas. intros Hin. apply in_map_iff in Hin.
  destruct Hin as (item & <- & Hitem). now exists item.
Qed.

(** C7. The sweep plots exactly one curve per entry of [malha], in the
    table's order (Aberta, then Fechada); each has exactly 100 points whose
    sieve openings are the log-spaced samples [10 ^ (4 i / 99)], from 1 at
    point 0 to 10000 at point 99. *)
Theorem curvas_one_per_entry :
  keys malha = ["Aberta"; "Fechada"]%string /\
  map rotulo (curvas A K Qe altura n)
  = [Some "Malha Aberta"; Some "Malha Fechada"]%string /\
  Forall (fun s => List.length (pontos s) = 100%nat /\
                   map fst (pontos s) = x_mm)
         (curvas A K Qe altura n) /\
  x_mm = map (fun i => Fin (Rpower 10 (INR i * (4 / 99)))) (seq 0 100) /\
  nth 0 x_mm NaN = Fin 1 /\
  nth 99 x_mm NaN = Fin 10000.
Proof.
  split; [reflexivity |]. split; [reflexivity |]. split; [| split; [| split]].
  - apply Forall_forall. intros s Hs.
    destruct (in_curvas _ Hs) as (item & _ & ->).
    rewrite pontos_curva. split.
    + now rewrite length_combine, length_map, length_x_mm.
    + apply map_fst_combine_map.
  - apply x_mm_samples.
  - rewrite x_mm_samples, nth_map_seq by lia.
    simpl INR. rewrite Rmult_0_l. f_equal. apply Rpower_O. lra.
  - rewrite x_mm_samples, nth_map_seq by lia. f_equal.
    replace (INR 99 * (4 / 99))%R with (INR 4).
    + rewrite Rpower_pow by lra. simpl. lra.
    + rewrite !INR_IZR_INZ. simpl Z.of_nat. lra.
Qed.

(** C9. Any two curves of the sweep have the same points: the entry's
    own [S_temp], [V_temp] and [K_temp] are never consumed, and every
    curve is evaluated with the X50 of the [K] handed to the loop (the
    primary evaluation's) and with the same [n]. *)
Theorem curvas_all_identical (s1 s2 : serie) :
  In s1 (curvas A K Qe altura n) ->
  In s2 (curvas A K Qe altura n) ->
  pontos s1 = pontos s2 /\
  pontos s1
  = combine x_mm
      (map (fun x => passante x (calcular_x50 A K Qe * Fin 10) n) x_mm) /\
  (forall B : float64, X50_temp A K Qe altura B = calcular_x50 A K Qe * Fin 10).
Proof.
  intros H1 H2.
  destruct (in_curvas _ H1) as (i1 & _ & ->).
  destruct (in_curvas _ H2) as (i2 & _ & ->).
  rewrite !pontos_curva. repeat split.
Qed.
End Sweep.

Lemma curvas_all_identical_witness :
  let s1 := curva (Fin 3) (Fin 1) (Fin 40) (Fin 10) (Fin 1) x_mm
              ("Aberta"%string, Fin 6.5) in
  let s2 := curva (Fin 3) (Fin 1) (Fin 40) (Fin 10) (Fin 1) x_mm
              ("Fechada"%string, Fin 3) in
  pontos s1 = pontos s2 /\
  pontos s1
  = combine x_mm
      (map (fun x => passante x (calcular_x50 (Fin 3) (Fin 1) (Fin 40)
                                 * Fin 10) (Fin 1)) x_mm) /\
  (forall B : float64,
     X50_temp (Fin 3) (Fin 1) (Fin 40) (Fin 10) B
     = calcular_x50 (Fin 3) (Fin 1) (Fin 40) * Fin 10).
Proof.
  apply (curvas_all_identical (Fin 3) (Fin 1) (Fin 40) (Fin 10) (Fin 1)).
  - left. reflexivity.
  - right. left. reflexivity.
Defined.

(** ** The whole script *)

Lemma getitem_explosivos (k : string) :
  In k (keys explosivos) ->
  exists d : R, getitem explosivos k = Ok (Fin d) /\ (0 < d)%R.
Proof.
  intros [<- | [<- | [<- | [<- | []]]]]; eexists; (split; [reflexivity | lra]).
Qed.

Lemma getitem_macicos (k : string) :
  In k (keys macicos) ->
  exists A : R, getitem macicos k = Ok (Fin A) /\ (0 < A)%R.
Proof.
  intros [<- | [<- | [<- | [<- | []]]]]; eexists; (split; [reflexivity | lra]).
Qed.

Lemma getitem_malha (k : string) :
  In k (keys malha) ->
  exists B : R, getitem malha k = Ok (Fin B) /\ (B = 6.5 \/ B = 3)%R.
Proof.
  intros [<- | [<- | []]]; eexists; (split; [reflexivity | auto]).
Qed.

Lemma simulador_ok (A afastamento densidade altura : float64)
    (fl li : Z) (n : float64) :
  let p := plano_de_fogo A densidade afastamento altura fl li in
  n_do_plano p afastamento altura = Ok n ->
  simulador A afastamento densidade altura fl li []
  = (pagina_completa A afastamento altura fl li p n, Ok tt).
Proof.
  intros p Hn. unfold simulador, bind, write, lift. fold p.
  cbn [app]. rewrite Hn. reflexivity.
Qed.

Lemma simulador_raise (A afastamento densidade altura : float64)
    (fl li : Z) (e : py_exception) :
  let p := plano_de_fogo A densidade afastamento altura fl li in
  n_do_plano p afastamento altura = Raise e ->
  simulador A afastamento densidade altura fl li []
  = (pagina_interrompida afastamento fl li p, Raise e).
Proof.
  intros p Hn. unfold simulador, bind, write, lift. fold p.
  cbn [app]. rewrite Hn. reflexivity.
Qed.

Lemma volume_pos (B H : R) :
  (B = 6.5 \/ B = 3 -> 2 <= H <= 15 -> 0 < Spec.spacing H B * B * H)%R.
Proof.
  intros HB HH. unfold Spec.spacing.
  assert (HB0 : (0 < B)%R) by (destruct HB; lra).
  assert (HS : (0 < 0.23 * (H + 2 * B))%R) by lra.
  apply Rmult_lt_0_compat; [apply Rmult_lt_0_compat |]; lra.
Qed.

(** On every input the widgets can produce the three lookups succeed and
    the script runs to its end. *)
Lemma run_valid (e : entrada) :
  entrada_valida e ->
  exists A B d : R,
    getitem macicos (macico_tipo e) = Ok (Fin A) /\
    getitem malha (malha_tipo e) = Ok (Fin B) /\
    getitem explosivos (explosivo_tipo e) = Ok (Fin d) /\
    (0 < A)%R /\ (B = 6.5 \/ B = 3)%R /\ (0 < d)%R /\
    run e
    = (pagina_completa (Fin A) (Fin B) (Fin (altura e))
         (furos_linha e) (linhas e)
         (plano_de_fogo (Fin A) (Fin d) (Fin B) (Fin (altura e))
            (furos_linha e) (linhas e))
         (Fin (Spec.uniformity_index B (Spec.spacing (altura e) B) 76.2 0.1
                 (Spec.hole_length_total (altura e)) (altura e))),
       Ok tt).
Proof.
  intros (He & Hm & Hb & HH & _ & _).
  destruct (getitem_macicos _ Hm) as (A & EA & HA).
  destruct (getitem_malha _ Hb) as (B & EB & HB).
  destruct (getitem_explosivos _ He) as (d & Ed & Hd).
  exists A, B, d. repeat (split; [assumption |]).
  unfold run, script, bind, lift. rewrite EA, EB, Ed.
  apply simulador_ok.
  assert (HB0 : (0 < B)%R) by (destruct HB; lra).
  assert (Hq : (0 < Spec.spacing (altura e) B / B)%R).
  { apply Rdiv_lt_0_compat; [unfold Spec.spacing; lra | assumption]. }
  apply n_do_plano_fin; lra.
Qed.

(** The powder factor of a plan whose volume per hole is positive. *)
Lemma plano_K_fin (A densidade B H : R) (fl li : Z) :
  (0 < densidade -> - 0.6 < H -> 0 < Spec.spacing H B * B * H ->
   exists k : R,
     Plano.K (plano_de_fogo (Fin A) (Fin densidade) (Fin B) (Fin H) fl li)
     = Fin k /\ 0 < k)%R.
Proof.
  intros Hd HH HV.
  rewrite plano_de_fogo_fin by assumption. cbn [Plano.K].
  eexists. split; [reflexivity |].
  apply Rdiv_lt_0_compat; [| assumption].
  apply charge_mass_pos; try lra. now apply hole_length_total_pos.
Qed.

(** With a burden of zero the volume per hole is zero, NumPy's division
    makes the powder factor [+inf] and the mean fragment size comes out
    as 0. *)
Lemma plano_zero_burden (A densidade H : R) (fl li : Z) :
  (0 < densidade)%R -> (0 < H)%R ->
  let p := plano_de_fogo (Fin A) (Fin densidade) (Fin 0) (Fin H) fl li in
  Plano.V p = Fin 0 /\ Plano.K p = PInf /\ Plano.X50_mm p = Fin 0.
Proof.
  intros Hd HH p.
  assert (HQ : (0 < Spec.charge_mass densidade 76.2
                       (Spec.hole_length_total H))%R).
  { apply charge_mass_pos; try lra. apply hole_length_total_pos. lra. }
  assert (EV : Plano.V p = Fin 0).
  { unfold p, plano_de_fogo. cbn [Plano.V]. rewrite calcular_espacamento_fin.
    cbn [fmul]. f_equal. ring. }
  assert (EK : Plano.K p = PInf).
  { unfold p, plano_de_fogo in EV |- *. cbn [Plano.V Plano.K] in EV |- *.
    rewrite EV. rewrite np_cos_inclinacao_rad. unfold subperf. cbn [fadd].
    rewrite np_truediv_fin by (pose proof cos_inclinacao_pos; lra).
    unfold diametro. rewrite calcular_qe_fin.
    now apply np_truediv_zero. }
  repeat split; try assumption.
  unfold p, plano_de_fogo in EK |- *. cbn [Plano.K Plano.X50_mm] in EK |- *.
  rewrite EK. unfold calcular_x50.
  rewrite np_power_PInf_neg by lra.
  rewrite np_cos_inclinacao_rad. unfold subperf. cbn [fadd].
  rewrite np_truediv_fin by (pose proof cos_inclinacao_pos; lra).
  unfold diametro. rewrite calcular_qe_fin.
  rewrite np_power_pos by exact HQ.
  cbn [fmul]. f_equal. ring.
Qed.

Lemma simulador_zero_burden (A densidade H : R) (fl li : Z) :
  simulador (Fin A) (Fin 0) (Fin densidade) (Fin H) fl li []
  = (pagina_interrompida (Fin 0) fl li
       (plano_de_fogo (Fin A) (Fin densidade) (Fin 0) (Fin H) fl li),
     Raise ZeroDivisionError).
Proof.
  apply simulador_raise. apply indice_uniformidade_zero_burden.
Qed.

Lemma entrada_inicial_valida : entrada_valida entrada_inicial.
Proof.
  unfold entrada_valida, entrada_inicial. cbn.
  repeat split; auto; try lra; lia.
Qed.

(** ** Degenerate geometry *)

(** At a burden of 0 nothing is signalled by the powder-factor
    computation: [K] is [+inf] and [X50] is 0, both are written to the
    page, and the script then stops with Python's [ZeroDivisionError],
    raised by [S / afastamento] in the uniformity index. *)
Lemma zero_burden_leaks_infinity :
  let p := plano_de_fogo (Fin 3) (Fin 0.90) (Fin 0) (Fin 10) 5 4 in
  Plano.K p = PInf /\
  Plano.X50_mm p = Fin 0 /\
  In (info RazaoDeCarga PInf) (pagina_interrompida (Fin 0) 5 4 p) /\
  simulador (Fin 3) (Fin 0) (Fin 0.90) (Fin 10) 5 4 []
  = (pagina_interrompida (Fin 0) 5 4 p, Raise ZeroDivisionError).
Proof.
  intros p.
  destruct (plano_zero_burden 3 0.90 10 5 4) as (_ & EK & EX); try lra.
  fold p in EK, EX.
  repeat split; try assumption.
  - unfold pagina_interrompida. rewrite EK. cbn [In]. tauto.
  - apply simulador_zero_burden.
Qed.

(** C2, amended. The script has no [ComputationError]. Its burden is a
    catalog value (6.5 or 3) and its bench height lies in [[2, 15]], so
    the volume per hole is positive: the script runs to its end and the
    powder factor on the page is a finite positive number. At a burden
    of 0 the division is NumPy's: [K = +inf] and [X50 = 0] are both
    written to the page and the script then stops with
    [ZeroDivisionError] in the uniformity index. *)
Theorem razao_de_carga_defined
    (e : entrada) (A densidade H : R) (fl li : Z) :
  entrada_valida e -> (0 < densidade)%R -> (0 < H)%R ->
  (exists (page : pagina) (k : R),
     run e = (page, Ok tt) /\
     In (info RazaoDeCarga (Fin k)) page /\ (0 < k)%R) /\
  (exists page : pagina,
     simulador (Fin A) (Fin 0) (Fin densidade) (Fin H) fl li []
     = (page, Raise ZeroDivisionError) /\
     In (info RazaoDeCarga PInf) page /\
     In (success TamanhoMedioX50 (Fin 0)) page).
Proof.
  intros Hv Hd HH. split.
  - destruct (run_valid e Hv)
      as (A' & B & d & _ & _ & _ & HA & HB & Hd' & Hrun).
    assert (Hh : (2 <= altura e <= 15)%R) by apply Hv.
    destruct (plano_K_fin A' d B (altura e) (furos_linha e) (linhas e))
      as (k & EK & Hk); try lra.
    { now apply volume_pos. }
    eexists. exists k. split; [exact Hrun |]. split; [| assumption].
    unfold pagina_completa. rewrite EK. cbn [In]. tauto.
  - eexists. split; [apply simulador_zero_burden |].
    destruct (plano_zero_burden A densidade H fl li) as (_ & EK & EX);
      try assumption.
    unfold pagina_interrompida. rewrite EK, EX. cbn [In]. tauto.
Qed.

Lemma razao_de_carga_defined_witness :
  (exists (page : pagina) (k : R),
     run entrada_inicial = (page, Ok tt) /\
     In (info RazaoDeCarga (Fin k)) page /\ (0 < k)%R) /\
  (exists page : pagina,
     simulador (Fin 3) (Fin 0) (Fin 0.90) (Fin 10) 5 4 []
     = (page, Raise ZeroDivisionError) /\
     In (info RazaoDeCarga PInf) page /\
     In (success TamanhoMedioX50 (Fin 0)) page).
Proof.
  apply (razao_de_carga_defined entrada_inicial 3 0.90 10 5 4).
  - exact entrada_inicial_valida.
  - lra.
  - lra.
Defined.

(** ** The sweep does not use the entry's powder factor *)

Lemma mean_fragment_size_inj (A K1 K2 Qe : R) :
  (0 < A -> 0 < K1 -> 0 < K2 ->
   Spec.mean_fragment_size A K1 Qe = Spec.mean_fragment_size A K2 Qe ->
   K1 = K2)%R.
Proof.
  intros HA H1 H2 E. unfold Spec.mean_fragment_size in E.
  pose proof (Rpower_pos Qe (1 / 6)) as Hq.
  assert (E1 : Rpower K1 (- 0.8) = Rpower K2 (- 0.8)).
  { apply Rmult_eq_reg_r with (Rpower Qe (1 / 6)); [| lra].
    apply Rmult_eq_reg_l with A; [| lra].
    rewrite <- !Rmult_assoc. exact E. }
  unfold Rpower in E1. apply exp_inv in E1.
  apply ln_inv; try assumption. lra.
Qed.

(** C1 fails on the code. On the page as first loaded (burden 6.5
    selected) the entry Fechada has its own powder factor [K_temp],
    different from the primary [K], but the X50 of its curve is the
    primary one and not the one of [K_temp]: line 122 passes [K]. *)
Theorem sweep_ignores_K_temp :
  let A := Fin 3 in
  let H := Fin 10 in
  let p := plano_de_fogo A (Fin 0.90) (Fin 6.5) H 5 4 in
  (exists n : float64,
     run entrada_inicial
     = (pagina_completa A (Fin 6.5) H 5 4 p n, Ok tt)) /\
  In ("Fechada"%string, Fin 3) malha /\
  K_temp (Plano.Qe p) H (Fin 3) <> Plano.K p /\
  X50_temp A (Plano.K p) (Plano.Qe p) H (Fin 3) = Plano.X50_mm p /\
  X50_temp A (Plano.K p) (Plano.Qe p) H (Fin 3)
  <> calcular_x50 A (K_temp (Plano.Qe p) H (Fin 3)) (Plano.Qe p) * Fin 10.
Proof.
  intros A H p.
  set (Qe := Spec.charge_mass 0.90 76.2 (Spec.hole_length_total 10)).
  assert (HQ : (0 < Qe)%R).
  { apply charge_mass_pos; try lra. apply hole_length_total_pos. lra. }
  assert (HV1 : (Spec.spacing 10 6.5 * 6.5 * 10 = 343.85)%R)
    by (unfold Spec.spacing; lra).
  assert (HV2 : (Spec.spacing 10 3 * 3 * 10 = 110.4)%R)
    by (unfold Spec.spacing; lra).
  assert (Ep : p = Plano.mk (Fin (Spec.hole_length_total 10))
                 (Fin (Spec.spacing 10 6.5)) (Fin Qe) (5 * 4)
                 (Fin (Qe * IZR (5 * 4)))
                 (Fin (Spec.spacing 10 6.5 * 6.5 * 10))
                 (Fin (Qe / (Spec.spacing 10 6.5 * 6.5 * 10)))
                 (Fin (Spec.mean_fragment_size 3
                         (Qe / (Spec.spacing 10 6.5 * 6.5 * 10)) Qe))
                 (Fin (Spec.mean_fragment_size 3
                         (Qe / (Spec.spacing 10 6.5 * 6.5 * 10)) Qe * 10))).
  { unfold p, A, H. apply plano_de_fogo_fin; lra. }
  assert (EKt : K_temp (Fin Qe) H (Fin 3)
                = Fin (Qe / (Spec.spacing 10 3 * 3 * 10))).
  { unfold K_temp, H. rewrite calcular_espacamento_fin. cbn [fmul].
    apply np_truediv_fin. lra. }
  assert (HK1 : (0 < Qe / (Spec.spacing 10 6.5 * 6.5 * 10))%R)
    by (apply Rdiv_lt_0_compat; lra).
  assert (HK2 : (0 < Qe / (Spec.spacing 10 3 * 3 * 10))%R)
    by (apply Rdiv_lt_0_compat; lra).
  assert (Hne : (Qe / (Spec.spacing 10 3 * 3 * 10)
                 <> Qe / (Spec.spacing 10 6.5 * 6.5 * 10))%R).
  { rewrite HV1, HV2. intros E.
    assert (E' : (Qe * 343.85 = Qe * 110.4)%R) by (field_simplify_eq in E; lra).
    nra. }
  split; [| split; [| split; [| split]]].
  - destruct (run_valid entrada_inicial entrada_inicial_valida)
      as (a & b & d & Ea & Eb & Ed & _ & _ & _ & Hrun).
    cbn in Ea, Eb, Ed. inversion Ea. inversion Eb. inversion Ed. subst a b d.
    eexists. exact Hrun.
  - cbn. tauto.
  - rewrite Ep. cbn [Plano.Qe Plano.K]. rewrite EKt.
    intros E. inversion E as [E']. now apply Hne.
  - reflexivity.
  - rewrite Ep. cbn [Plano.Qe Plano.K]. rewrite EKt.
    unfold X50_temp, A. rewrite !calcular_x50_fin by assumption.
    cbn [fmul]. intros E. inversion E as [E'].
    apply Hne. symmetry.
    apply (mean_fragment_size_inj 3 _ _ Qe); try lra.
Qed.

(** ** Further properties *)



Lemma length_range (n : Z) : List.length (range n) = Z.to_nat n.
Proof. unfold range. now rewrite length_map, length_seq. Qed.

Lemma length_flat_map_const {A B : Type} (f : A -> list B) (k : nat)
    (l : list A) :
  (forall a, List.length (f a) = k) ->
  List.length (flat_map f l) = (List.length l * k)%nat.
Proof.
  intros Hf. induction l as [| a l IH]; [reflexivity |].
  cbn [flat_map]. rewrite length_app, Hf, IH. reflexivity.
Qed.

(** X2. The hole grid has one point per hole, [linhas] rows of [furos_linha]
    holes; a plan of one row of one hole is the single point (0, 0). *)
Theorem plano_malha_points (S B : float64) (fl li : Z) :
  List.length (plano_malha S B fl li) = (Z.to_nat li * Z.to_nat fl)%nat /\
  Forall (fun s => List.length (pontos s) = 1%nat) (plano_malha S B fl li) /\
  (forall s b : R,
     plano_malha (Fin s) (Fin b) 1 1 = [mk_serie None [(Fin 0, Fin 0)]]).
Proof.
  split; [| split].
  - unfold plano_malha.
    rewrite (length_flat_map_const _ (Z.to_nat fl)).
    + now rewrite length_range.
    + intros i. now rewrite length_map, length_range.
  - apply Forall_forall. intros s Hs. unfold plano_malha in Hs.
    apply in_flat_map in Hs. destruct Hs as (i & _ & Hs).
    apply in_map_iff in Hs. destruct Hs as (j & <- & _). reflexivity.
  - intros s b. unfold plano_malha, range.
    change (Z.to_nat 1) with 1%nat. cbn.
    now rewrite !Rmult_0_l.
Qed.

Section Binary64Check.
Import PrimFloat.
#[local] Set Warnings "-inexact-float".

(** In binary64 arithmetic itself, [calcular_espacamento(10, 6.5)] is the
    float nearest to 5.29, and so within [1e-9] of it. *)
Theorem calcular_espacamento_b64_example :
  Binary64.calcular_espacamento_b64 10 6.5 = 5.29%float /\
  (abs (Binary64.calcular_espacamento_b64 10 6.5 - 5.29) <=? 1e-9)%float
  = true.
Proof. split; vm_compute; reflexivity. Qed.
End Binary64Check.

(** ** The PDF export *)

Lemma apagar_fresh (nome : string) (d : disco) :
  ~ In nome (nomes d) -> apagar nome d = d.
Proof.
  induction d as [| [k a] d IH]; intros Hn; [reflexivity |].
  cbn in *. destruct (String.eqb_spec nome k) as [-> | Hk].
  - exfalso. apply Hn. now left.
  - cbn. f_equal. apply IH. tauto.
Qed.

Lemma ler_head (nome : string) (a : arquivo) (d : disco) :
  ler ((nome, a) :: d) nome = Some a.
Proof. cbn. now rewrite String.eqb_refl. Qed.

Lemma ler_next (nome k : string) (a : arquivo) (d : disco) :
  nome <> k -> ler ((k, a) :: d) nome = ler d nome.
Proof. intros Hk. cbn. now destruct (String.eqb_spec nome k). Qed.

Lemma apagar_head (nome : string) (a : arquivo) (d : disco) :
  apagar nome ((nome, a) :: d) = apagar nome d.
Proof. cbn. now rewrite String.eqb_refl. Qed.

Lemma apagar_next (nome k : string) (a : arquivo) (d : disco) :
  nome <> k -> apagar nome ((k, a) :: d) = (k, a) :: apagar nome d.
Proof. intros Hk. cbn. now destruct (String.eqb_spec nome k). Qed.

Lemma escrever_head (nome : string) (a b : arquivo) (d : disco) :
  ~ In nome (nomes d) -> escrever nome b ((nome, a) :: d) = (nome, b) :: d.
Proof.
  intros Hn. unfold escrever. now rewrite apagar_head, apagar_fresh.
Qed.

Ltac chamar amb c :=
  let E := fresh "E" in
  destruct (levanta amb c) eqn:E; cbn -[ler escrever apagar app nomes].

Ltac antes_devolveu :=
  let c' := fresh "c'" in
  let Hlt := fresh "Hlt" in
  intros c' Hlt; destruct c'; cbn in Hlt; first [assumption | lia].

Ltac falhou c :=
  right; exists c; eexists;
  split; [reflexivity |]; split; [assumption |];
  split; [| antes_devolveu]; cbn;
  first [ reflexivity
        | eexists; left; reflexivity
        | eexists; right; left; eexists; reflexivity
        | eexists; right; right; reflexivity ].

Lemma gerar_pdf_cases (amb : ambiente) (f g : list serie) (d : disco) :
  fresco amb ->
  let nm1 := nome_temp amb d in
  let nm2 := nome_temp amb ((nm1, Png f) :: d) in
  (gerar_pdf amb f g d = (d, Devolve (relatorio f g)) /\
   forall c, levanta amb c = false) \/
  exists c d',
    gerar_pdf amb f g d = (d', Levanta c) /\
    levanta amb c = true /\
    (if depois_do_primeiro_temp c
     then exists a, d' = (nm1, a) :: d \/
                    (exists b, d' = (nm2, b) :: (nm1, a) :: d) \/
                    d' = (nm2, a) :: d
     else d' = d) /\
    (forall c', (posicao c' < posicao c)%nat -> levanta amb c' = false).
Proof.
  intros Hf nm1 nm2.
  assert (H1 : ~ In nm1 (nomes d)) by apply Hf.
  assert (H2 : ~ In nm2 (nomes ((nm1, Png f) :: d))) by apply Hf.
  assert (H21 : nm2 <> nm1) by (intros E; apply H2; left; now rewrite E).
  assert (H2d : ~ In nm2 (nomes d)) by (intros E; apply H2; now right).
  unfold gerar_pdf, io_bind, pdf_call, named_temporary_file, savefig,
    pdf_image, os_remove, externo, io_ret.
  chamar amb c_FPDF; [falhou c_FPDF |].
  chamar amb c_add_page_1; [falhou c_add_page_1 |].
  chamar amb c_set_font_1; [falhou c_set_font_1 |].
  chamar amb c_cell_1; [falhou c_cell_1 |].
  chamar amb c_ln; [falhou c_ln |].
  chamar amb c_tmp_fogo; [falhou c_tmp_fogo |].
  fold nm1.
  chamar amb c_savefig_fogo; [falhou c_savefig_fogo |].
  rewrite escrever_head by assumption. rewrite ler_head.
  chamar amb c_image_fogo; [falhou c_image_fogo |].
  chamar amb c_add_page_2; [falhou c_add_page_2 |].
  chamar amb c_set_font_2; [falhou c_set_font_2 |].
  chamar amb c_cell_2; [falhou c_cell_2 |].
  chamar amb c_tmp_granulo; [falhou c_tmp_granulo |].
  fold nm2.
  chamar amb c_savefig_granulo; [falhou c_savefig_granulo |].
  rewrite escrever_head by assumption. rewrite ler_head.
  chamar amb c_image_granulo; [falhou c_image_granulo |].
  chamar amb c_output; [falhou c_output |].
  chamar amb c_encode; [falhou c_encode |].
  rewrite (ler_next nm1 nm2) by congruence. rewrite ler_head.
  chamar amb c_remove_fogo; [falhou c_remove_fogo |].
  rewrite (apagar_next nm1 nm2) by congruence.
  rewrite apagar_head, (apagar_fresh nm1) by assumption.
  rewrite ler_head.
  chamar amb c_remove_granulo; [falhou c_remove_granulo |].
  rewrite apagar_head, apagar_fresh by assumption.
  left. split; [reflexivity |].
  intros c. destruct c; assumption.
Qed.

Lemma nome_longo_fresco (d : disco) : ~ In (nome_longo d) (nomes d).
Proof.
  intros Hin.
  assert (Hle : (String.length (nome_longo d)
                 <= list_max (map String.length (nomes d)))%nat).
  { pose proof (list_max_le (map String.length (nomes d))
                  (list_max (map String.length (nomes d)))) as [Hmax _].
    specialize (Hmax (Nat.le_refl _)).
    rewrite Forall_forall in Hmax. apply Hmax. now apply in_map. }
  unfold nome_longo in Hle.
  assert (Hlen : forall l, String.length (string_of_list_ascii l)
                           = List.length l).
  { induction l as [| c l IH]; cbn; congruence. }
  rewrite Hlen, repeat_length in Hle. lia.
Qed.

Lemma ambiente_exemplo_fresco (falhas : list chamada) :
  fresco (ambiente_exemplo falhas).
Proof. intros d. apply nome_longo_fresco. Qed.

(** X4. When no call raises, [gerar_pdf] returns the two-page document
    (title and hole-grid chart, then header and curves chart) and leaves
    the disk exactly as it found it: both temporary files are gone. It
    returns a document in no other case. *)
Theorem gerar_pdf_success (amb : ambiente) (f g : list serie) (d : disco) :
  fresco amb ->
  ((forall c, levanta amb c = false) ->
   gerar_pdf amb f g d = (d, Devolve (relatorio f g))) /\
  (forall d' doc,
     gerar_pdf amb f g d = (d', Devolve doc) ->
     d' = d /\ doc = relatorio f g /\ forall c, levanta amb c = false).
Proof.
  intros Hf.
  destruct (gerar_pdf_cases amb f g d Hf) as [[E Hl] | (c & d0 & E & Hc & _)].
  - split; [auto |]. intros d' doc E'. rewrite E in E'.
    inversion E'. auto.
  - split.
    + intros Hl. rewrite Hl in Hc. discriminate.
    + intros d' doc E'. rewrite E in E'. discriminate.
Qed.

Lemma gerar_pdf_success_witness :
  (let amb := ambiente_exemplo [] in
   ((forall c, levanta amb c = false) ->
    gerar_pdf amb [] [] [] = ([], Devolve (relatorio [] []))) /\
   (forall d' doc,
      gerar_pdf amb [] [] [] = (d', Devolve doc) ->
      d' = [] /\ doc = relatorio [] [] /\ forall c, levanta amb c = false)).
Proof.
  apply (gerar_pdf_success (ambiente_exemplo []) [] [] []).
  apply ambiente_exemplo_fresco.
Defined.

(** X5. [gerar_pdf] has no cleanup on failure. When it raises, the
    exception is that of the first call the environment fails: every call
    made before it has returned. If that call comes after the first
    temporary file was created, a file that was not on disk before is left
    behind, and otherwise the disk is unchanged. *)
Theorem gerar_pdf_leaves_temp_files
    (amb : ambiente) (f g : list serie) (d d' : disco) (c : chamada) :
  fresco amb ->
  gerar_pdf amb f g d = (d', Levanta c) ->
  levanta amb c = true /\
  (forall c', (posicao c' < posicao c)%nat -> levanta amb c' = false) /\
  (depois_do_primeiro_temp c = true ->
   exists nome, In nome (nomes d') /\ ~ In nome (nomes d)) /\
  (depois_do_primeiro_temp c = false -> d' = d).
Proof.
  intros Hf E.
  assert (H1 : ~ In (nome_temp amb d) (nomes d)) by apply Hf.
  assert (H2 : ~ In (nome_temp amb ((nome_temp amb d, Png f) :: d))
                 (nomes ((nome_temp amb d, Png f) :: d))) by apply Hf.
  destruct (gerar_pdf_cases amb f g d Hf)
    as [[E' _] | (c0 & d0 & E' & Hc & Hd & Hfirst)];
    rewrite E' in E; [discriminate |].
  inversion E; subst c0 d0. clear E.
  split; [assumption |]. split; [assumption |].
  split; intros Hdep; rewrite Hdep in Hd.
  - destruct Hd as (a & [-> | [(b & ->) | ->]]).
    + exists (nome_temp amb d). split; [now left | assumption].
    + exists (nome_temp amb d). split; [right; now left | assumption].
    + eexists. split; [now left |]. intros Hin. apply H2. now right.
  - assumption.
Qed.

Lemma gerar_pdf_leaves_temp_files_witness :
  let amb := ambiente_exemplo [c_savefig_granulo; c_remove_fogo] in
  let d' := [("tt", Vazio); ("t", Png [])]%string in
  levanta amb c_savefig_granulo = true /\
  (forall c',
     (posicao c' < posicao c_savefig_granulo)%nat ->
     levanta amb c' = false) /\
  (depois_do_primeiro_temp c_savefig_granulo = true ->
   exists nome, In nome (nomes d') /\ ~ In nome (nomes [])) /\
  (depois_do_primeiro_temp c_savefig_granulo = false -> d' = []).
Proof.
  apply (gerar_pdf_leaves_temp_files
           (ambiente_exemplo [c_savefig_granulo; c_remove_fogo]) [] [] []).
  - apply ambiente_exemplo_fresco.
  - reflexivity.
Defined.

(** X6. Whatever happens, [gerar_pdf] touches no file but its own two
    temporary ones: every file that was on disk is still there with its
    content, and at most two files are added. *)
Theorem gerar_pdf_keeps_other_files
    (amb : ambiente) (f g : list serie) (d d' : disco)
    (r : retorno (list pdf_op)) :
  fresco amb ->
  gerar_pdf amb f g d = (d', r) ->
  incl d d' /\
  (forall nome a, ler d nome = Some a -> ler d' nome = Some a) /\
  (List.length d' <= List.length d + 2)%nat.
Proof.
  intros Hf E.
  assert (H1 : ~ In (nome_temp amb d) (nomes d)) by apply Hf.
  assert (H2 : ~ In (nome_temp amb ((nome_temp amb d, Png f) :: d))
                 (nomes ((nome_temp amb d, Png f) :: d))) by apply Hf.
  assert (Hler : forall nome a k b (d0 : disco),
             ~ In k (nomes d) -> ler d nome = Some a ->
             ler d0 nome = Some a -> ler ((k, b) :: d0) nome = Some a).
  { intros nome a k b d0 Hk Hd Hd0. rewrite ler_next; [assumption |].
    intros ->. apply Hk. clear - Hd.
    induction d as [| [k' a'] d IH]; [discriminate |].
    cbn in *. destruct (String.eqb_spec k k'); [now left | right; auto]. }
  assert (H2d : ~ In (nome_temp amb ((nome_temp amb d, Png f) :: d)) (nomes d))
    by (intros Hin; apply H2; now right).
  destruct (gerar_pdf_cases amb f g d Hf)
    as [[E' _] | (c0 & d0 & E' & Hc & Hd & _)];
    rewrite E' in E; inversion E; subst.
  - repeat split; [apply incl_refl | auto | lia].
  - destruct (depois_do_primeiro_temp c0).
    + destruct Hd as (a & [-> | [(b & ->) | ->]]); repeat split;
        try (cbn [List.length]; lia);
        try (repeat apply incl_tl; apply incl_refl);
        intros nome a0 Hn; repeat apply Hler; assumption.
    + subst. repeat split; [apply incl_refl | auto | lia].
Qed.

Lemma gerar_pdf_keeps_other_files_witness :
  let d := [("plano.txt", Vazio)]%string in
  let d' := [("tttttttttt", Png []); ("plano.txt", Vazio)]%string in
  incl d d' /\
  (forall nome a, ler d nome = Some a -> ler d' nome = Some a) /\
  (List.length d' <= List.length d + 2)%nat.
Proof.
  apply (gerar_pdf_keeps_other_files
           (ambiente_exemplo [c_image_fogo]) [] []
           [("plano.txt", Vazio)]%string _ (Levanta c_image_fogo)).
  - apply ambiente_exemplo_fresco.
  - reflexivity.
Defined.

(** ** The hole grid, point by point *)

Section Grid.
Local Open Scope R_scope.

Lemma nth_flat_map_const {A B : Type} (f : A -> list B) (k : nat)
    (l : list A) (i j : nat) (da : A) (d : B) :
  (forall a, List.length (f a) = k) ->
  (i < List.length l)%nat -> (j < k)%nat ->
  nth (i * k + j) (flat_map f l) d = nth j (f (nth i l da)) d.
Proof.
  intros Hf. revert i. induction l as [| a l IH]; intros i Hi Hj.
  - cbn in Hi. lia.
  - cbn [flat_map]. destruct i as [| i].
    + cbn [nth Nat.mul Nat.add]. apply app_nth1. now rewrite Hf.
    + rewrite app_nth2 by (rewrite Hf; lia). rewrite Hf.
      replace (S i * k + j - k)%nat with (i * k + j)%nat by lia.
      cbn [nth]. apply IH; [cbn in Hi; lia | assumption].
Qed.

Lemma nth_range (n : Z) (i : nat) (d : Z) :
  (i < Z.to_nat n)%nat -> nth i (range n) d = Z.of_nat i.
Proof.
  intros Hi. unfold range. now apply nth_map_seq.
Qed.

(** X3. The hole grid is rectangular: hole [j] of row [i] (both counted
    from 0) is the plot call number [i * furos_linha + j] and sits at
    [(j * S, i * afastamento)], with no stagger between rows. *)
Theorem plano_malha_rectangular (S B : float64) (fl li : Z) (i j : nat)
    (d : serie) :
  (i < Z.to_nat li)%nat -> (j < Z.to_nat fl)%nat ->
  nth (i * Z.to_nat fl + j) (plano_malha S B fl li) d
  = mk_serie None [(fmul (Fin (INR j)) S, fmul (Fin (INR i)) B)].
Proof.
  intros Hi Hj. unfold plano_malha.
  rewrite (nth_flat_map_const _ (Z.to_nat fl) _ i j 0%Z).
  - rewrite nth_range by assumption.
    rewrite (nth_indep _ d (mk_serie None [])) by
      (now rewrite length_map, length_range).
    unfold range at 1. rewrite map_map, nth_map_seq by assumption.
    now rewrite <- !INR_IZR_INZ.
  - intros a. now rewrite length_map, length_range.
  - now rewrite length_range.
  - assumption.
Qed.

Lemma plano_malha_rectangular_witness :
  nth (1 * Z.to_nat 5 + 2) (plano_malha (Fin 5.29) (Fin 6.5) 5 4)
    (mk_serie None [])
  = mk_serie None [(fmul (Fin (INR 2)) (Fin 5.29),
                    fmul (Fin (INR 1)) (Fin 6.5))].
Proof.
  apply (plano_malha_rectangular (Fin 5.29) (Fin 6.5) 5 4 1 2).
  - apply Nat.ltb_lt. reflexivity.
  - apply Nat.ltb_lt. reflexivity.
Defined.
End Grid.

(** ** Missing table keys *)

Lemma getitem_missing (d : list (string * float64)) (k : string) :
  ~ In k (keys d) -> getitem d k = Raise KeyError.
Proof.
  induction d as [| [k' v] d IH]; intros Hk; [reflexivity |].
  cbn in *. destruct (String.eqb_spec k k') as [-> | Hne].
  - exfalso. apply Hk. now left.
  - apply IH. tauto.
Qed.

Lemma getitem_present (d : list (string * float64)) (k : string) :
  In k (keys d) -> exists v, getitem d k = Ok v /\ In (k, v) d.
Proof.
  induction d as [| [k' v] d IH]; intros Hk; [contradiction |].
  cbn in *. destruct (String.eqb_spec k k') as [-> | Hne].
  - exists v. auto.
  - destruct Hk as [E | Hk]; [congruence |].
    destruct (IH Hk) as (v' & E & Hin). exists v'. auto.
Qed.

Lemma py_truediv_cases (a b : float64) :
  (exists v, py_truediv a b = Ok v) \/ py_truediv a b = Raise ZeroDivisionError.
Proof.
  unfold py_truediv. destruct b; eauto. destruct (Req_dec_T r 0); eauto.
Qed.

Lemma py_pow_cases (a b : float64) :
  (exists v, py_pow a b = Ok v) \/ py_pow a b = Raise ZeroDivisionError \/
  py_pow a b = Complex.
Proof.
  unfold py_pow. destruct a, b; eauto.
  destruct (Req_dec_T r0 0); eauto.
  destruct (Req_dec_T r 0); [destruct (Rlt_dec r0 0); eauto |].
  destruct (Rlt_dec r 0); eauto. destruct (is_integer r0); eauto.
Qed.

Lemma indice_uniformidade_no_KeyError (B S H L : float64) :
  indice_uniformidade B S H L <> Raise KeyError.
Proof.
  unfold indice_uniformidade.
  destruct (py_truediv_cases S B) as [(q & ->) | ->]; cbn [obind];
    [| discriminate].
  match goal with |- context [py_pow ?a ?b] =>
    destruct (py_pow_cases a b) as [(f2 & ->) | [-> | ->]] end;
    cbn [obind]; try discriminate.
  destruct (py_truediv_cases (Fin 0.1) B) as [(w & ->) | ->]; cbn [obind];
    discriminate.
Qed.

Lemma simulador_no_KeyError (A B d H : float64) (fl li : Z) (page : pagina) :
  simulador A B d H fl li [] <> (page, Raise KeyError).
Proof.
  unfold simulador, bind, write, lift. cbn [app].
  destruct (n_do_plano (plano_de_fogo A d B H fl li) B H) as [n | e |] eqn:E.
  - discriminate.
  - intros E'. inversion E'. subst e.
    now apply indice_uniformidade_no_KeyError in E.
  - discriminate.
Qed.

(** X7. The script ends with [KeyError] exactly when one of the three
    selected names is not a key of its table, and then none of the
    readouts and neither chart has been written: the three lookups come
    before the first [st.info].  (The title and the widgets themselves,
    which the script draws before the lookups, are not part of [pagina].) *)
Theorem script_key_error (e : entrada) (page : pagina) :
  run e = (page, Raise KeyError) <->
  page = [] /\
  (~ In (macico_tipo e) (keys macicos) \/
   ~ In (malha_tipo e) (keys malha) \/
   ~ In (explosivo_tipo e) (keys explosivos)).
Proof.
  unfold run, script, bind, lift.
  destruct (in_dec string_dec (macico_tipo e) (keys macicos)) as [H1 | H1].
  2:{ rewrite (getitem_missing _ _ H1). split.
      - intros E. inversion E. auto.
      - intros [-> _]. reflexivity. }
  destruct (getitem_present _ _ H1) as (A & -> & _).
  destruct (in_dec string_dec (malha_tipo e) (keys malha)) as [H2 | H2].
  2:{ rewrite (getitem_missing _ _ H2). split.
      - intros E. inversion E. auto.
      - intros [-> _]. reflexivity. }
  destruct (getitem_present _ _ H2) as (B & -> & _).
  destruct (in_dec string_dec (explosivo_tipo e) (keys explosivos))
    as [H3 | H3].
  2:{ rewrite (getitem_missing _ _ H3). split.
      - intros E. inversion E. auto.
      - intros [-> _]. reflexivity. }
  destruct (getitem_present _ _ H3) as (d & -> & _).
  split.
  - intros E. now apply simulador_no_KeyError in E.
  - intros [_ [N | [N | N]]]; contradiction.
Qed.

Lemma script_key_error_witness :
  run (mk_entrada "ANFO" "Granito" "Aberta" 10 5 4) = ([], Raise KeyError)
  <->
  ([] : pagina) = [] /\
  (~ In "Granito"%string (keys macicos) \/
   ~ In "Aberta"%string (keys malha) \/
   ~ In "ANFO"%string (keys explosivos)).
Proof.
  apply (script_key_error (mk_entrada "ANFO" "Granito" "Aberta" 10 5 4) []).
Defined.

(** ** Mean fragment size *)

Section MeanFragmentSize.
Local Open Scope R_scope.

Lemma is_integer_neg08 : is_integer (- 0.8) = false.
Proof.
  unfold is_integer.
  assert (HI : Int_part (- 0.8) = (-1)%Z) by (symmetry; apply Int_part_spec; lra).
  rewrite HI. destruct (Req_dec_T (- 0.8) (-1)); [lra | reflexivity].
Qed.

Lemma np_power_neg_base (k : R) : k < 0 -> np_power (Fin k) (Fin (- 0.8)) = NaN.
Proof.
  intros Hk. unfold np_power, pow_finite. rewrite is_integer_neg08.
  now repeat real_case.
Qed.

Lemma np_power_zero_neg (y : R) : y < 0 -> np_power (Fin 0) (Fin y) = PInf.
Proof. intros Hy. unfold np_power, pow_finite. now repeat real_case. Qed.

Lemma fmul_PInf_pos (x : R) : 0 < x -> fmul PInf (Fin x) = PInf /\ fmul (Fin x) PInf = PInf.
Proof. intros Hx. unfold fmul, inf_like. now repeat real_case. Qed.

(** X8. Outside its domain [calcular_x50] raises nothing: for a positive
    rock factor and charge, a powder factor of 0 gives [+inf], an
    infinite one gives 0, and a negative one gives NaN. *)
Theorem calcular_x50_edge_cases (A Qe : R) :
  0 < A -> 0 < Qe ->
  calcular_x50 (Fin A) (Fin 0) (Fin Qe) = PInf /\
  calcular_x50 (Fin A) PInf (Fin Qe) = Fin 0 /\
  (forall K : R, K < 0 -> calcular_x50 (Fin A) (Fin K) (Fin Qe) = NaN).
Proof.
  intros HA HQ. unfold calcular_x50.
  rewrite (np_power_pos Qe) by assumption.
  pose proof (Rpower_pos Qe (1 / 6)) as Hq.
  split; [| split].
  - rewrite np_power_zero_neg by lra.
    destruct (fmul_PInf_pos A HA) as [_ ->].
    now destruct (fmul_PInf_pos _ Hq) as [-> _].
  - rewrite np_power_PInf_neg by lra. cbn [fmul]. f_equal. ring.
  - intros K HK. now rewrite np_power_neg_base.
Qed.

Lemma calcular_x50_edge_cases_witness :
  calcular_x50 (Fin 3) (Fin 0) (Fin 40) = PInf /\
  calcular_x50 (Fin 3) PInf (Fin 40) = Fin 0 /\
  (forall K : R, K < 0 -> calcular_x50 (Fin 3) (Fin K) (Fin 40) = NaN).
Proof. apply (calcular_x50_edge_cases 3 40); lra. Defined.

Lemma Rpower_neg_decr (a b c : R) : 0 < a < b -> c < 0 -> Rpower b c < Rpower a c.
Proof.
  intros [Ha Hab] Hc.
  set (c' := - c). assert (Hc' : 0 < c') by (unfold c'; lra).
  replace c with (- c') by (unfold c'; ring). rewrite !Rpower_Ropp.
  apply Rinv_lt_contravar.
  - apply Rmult_lt_0_compat; apply Rpower_pos.
  - apply Rlt_Rpower_l; lra.
Qed.

Lemma mean_fragment_size_decr (A K1 K2 Qe : R) :
  0 < A -> 0 < K1 < K2 ->
  Spec.mean_fragment_size A K2 Qe < Spec.mean_fragment_size A K1 Qe.
Proof.
  intros HA HK. unfold Spec.mean_fragment_size.
  pose proof (Rpower_pos Qe (1 / 6)) as Hq.
  pose proof (Rpower_neg_decr K1 K2 (- 0.8) HK ltac:(lra)) as Hd.
  apply Rmult_lt_compat_r; [assumption |].
  apply Rmult_lt_compat_l; assumption.
Qed.

Lemma mean_fragment_size_incr_Qe (A K Q1 Q2 : R) :
  0 < A -> 0 < Q1 < Q2 ->
  Spec.mean_fragment_size A K Q1 < Spec.mean_fragment_size A K Q2.
Proof.
  intros HA HQ. unfold Spec.mean_fragment_size.
  pose proof (Rpower_pos K (- 0.8)) as Hk.
  apply Rmult_lt_compat_l; [now apply Rmult_lt_0_compat |].
  apply Rlt_Rpower_l; lra.
Qed.

(** X9. For a positive rock factor, [calcular_x50] is positive, strictly
    decreasing in the powder factor [K] and strictly increasing in the
    charge per hole [Qe]. *)
Theorem calcular_x50_monotone (A K1 K2 Q1 Q2 : R) :
  0 < A -> 0 < K1 -> K1 < K2 -> 0 < Q1 -> Q1 < Q2 ->
  exists x11 x21 x12 : R,
    calcular_x50 (Fin A) (Fin K1) (Fin Q1) = Fin x11 /\
    calcular_x50 (Fin A) (Fin K2) (Fin Q1) = Fin x21 /\
    calcular_x50 (Fin A) (Fin K1) (Fin Q2) = Fin x12 /\
    0 < x21 < x11 /\ x11 < x12.
Proof.
  intros HA HK1 HK HQ1 HQ.
  do 3 eexists.
  rewrite !calcular_x50_fin by lra.
  repeat split.
  - now apply mean_fragment_size_pos.
  - apply mean_fragment_size_decr; lra.
  - apply mean_fragment_size_incr_Qe; lra.
Qed.

Lemma calcular_x50_monotone_witness :
  exists x11 x21 x12 : R,
    calcular_x50 (Fin 3) (Fin 0.1) (Fin 40) = Fin x11 /\
    calcular_x50 (Fin 3) (Fin 0.4) (Fin 40) = Fin x21 /\
    calcular_x50 (Fin 3) (Fin 0.1) (Fin 50) = Fin x12 /\
    0 < x21 < x11 /\ x11 < x12.
Proof. apply (calcular_x50_monotone 3 0.1 0.4 40 50); lra. Defined.

(** X10. With everything else fixed, a larger burden gives a smaller
    powder factor and a larger mean fragment size: the plan of the closed
    pattern fragments finer than the plan of the open one. *)
Theorem plano_X50_grows_with_burden (A densidade B1 B2 H : R) (fl li : Z) :
  0 < A -> 0 < densidade -> 0 < H -> 0 < B1 -> B1 < B2 ->
  exists k1 k2 x1 x2 : R,
    Plano.K (plano_de_fogo (Fin A) (Fin densidade) (Fin B1) (Fin H) fl li)
    = Fin k1 /\
    Plano.K (plano_de_fogo (Fin A) (Fin densidade) (Fin B2) (Fin H) fl li)
    = Fin k2 /\
    Plano.X50_mm (plano_de_fogo (Fin A) (Fin densidade) (Fin B1) (Fin H) fl li)
    = Fin x1 /\
    Plano.X50_mm (plano_de_fogo (Fin A) (Fin densidade) (Fin B2) (Fin H) fl li)
    = Fin x2 /\
    0 < k2 < k1 /\ 0 < x1 < x2.
Proof.
  intros HA Hd HH HB1 HB.
  assert (HV : forall B, 0 < B -> 0 < Spec.spacing H B * B * H).
  { intros B HB0. unfold Spec.spacing.
    assert (0 < 0.23 * (H + 2 * B)) by lra.
    apply Rmult_lt_0_compat; [apply Rmult_lt_0_compat |]; lra. }
  assert (HVlt : Spec.spacing H B1 * B1 * H < Spec.spacing H B2 * B2 * H).
  { unfold Spec.spacing.
    assert (Hs : (H + 2 * B1) * B1 < (H + 2 * B2) * B2) by nra.
    replace (0.23 * (H + 2 * B1) * B1 * H)
      with (0.23 * H * ((H + 2 * B1) * B1)) by ring.
    replace (0.23 * (H + 2 * B2) * B2 * H)
      with (0.23 * H * ((H + 2 * B2) * B2)) by ring.
    apply Rmult_lt_compat_l; [nra | assumption]. }
  set (Qe := Spec.charge_mass densidade 76.2 (Spec.hole_length_total H)).
  assert (HQ : 0 < Qe).
  { apply charge_mass_pos; try lra. apply hole_length_total_pos. lra. }
  rewrite !plano_de_fogo_fin by (try apply HV; lra).
  cbn [Plano.K Plano.X50_mm]. fold Qe.
  do 4 eexists. repeat split.
  - apply Rdiv_lt_0_compat; [assumption | apply HV; lra].
  - unfold Rdiv. apply Rmult_lt_compat_l; [assumption |].
    apply Rinv_lt_contravar; [| assumption].
    apply Rmult_lt_0_compat; apply HV; lra.
  - apply Rmult_lt_0_compat; [| lra]. now apply mean_fragment_size_pos.
  - apply Rmult_lt_compat_r; [lra |].
    apply mean_fragment_size_decr; [assumption |]. split.
    + apply Rdiv_lt_0_compat; [assumption | apply HV; lra].
    + unfold Rdiv. apply Rmult_lt_compat_l; [assumption |].
      apply Rinv_lt_contravar; [| assumption].
      apply Rmult_lt_0_compat; apply HV; lra.
Qed.

Lemma plano_X50_grows_with_burden_witness :
  exists k1 k2 x1 x2 : R,
    Plano.K (plano_de_fogo (Fin 3) (Fin 0.90) (Fin 3) (Fin 10) 5 4)
    = Fin k1 /\
    Plano.K (plano_de_fogo (Fin 3) (Fin 0.90) (Fin 6.5) (Fin 10) 5 4)
    = Fin k2 /\
    Plano.X50_mm (plano_de_fogo (Fin 3) (Fin 0.90) (Fin 3) (Fin 10) 5 4)
    = Fin x1 /\
    Plano.X50_mm (plano_de_fogo (Fin 3) (Fin 0.90) (Fin 6.5) (Fin 10) 5 4)
    = Fin x2 /\
    0 < k2 < k1 /\ 0 < x1 < x2.
Proof.
  apply (plano_X50_grows_with_burden 3 0.90 3 6.5 10 5 4); lra.
Defined.
End MeanFragmentSize.

(** ** Charge per hole and hole length *)

Section ChargeAndLength.
Local Open Scope R_scope.

(** X11. [calcular_qe] is proportional to the density and to the hole
    length and goes with the square of the diameter (twice the diameter,
    four times the charge; the sign of the diameter does not matter); it
    is positive for a positive density and length and a non-zero
    diameter. *)
Theorem calcular_qe_scaling (densidade d L c k m : R) :
  exists q : R,
    calcular_qe (Fin densidade) (Fin d) (Fin L) = Fin q /\
    calcular_qe (Fin (c * densidade)) (Fin (k * d)) (Fin (m * L))
    = Fin (c * k ^ 2 * m * q) /\
    calcular_qe (Fin densidade) (Fin (- d)) (Fin L) = Fin q /\
    (0 < densidade -> d <> 0 -> 0 < L -> 0 < q).
Proof.
  eexists. rewrite !calcular_qe_fin. repeat split.
  - f_equal. unfold Spec.charge_mass. field.
  - f_equal. unfold Spec.charge_mass. field.
  - apply charge_mass_pos.
Qed.

Lemma calcular_qe_scaling_witness :
  exists q : R,
    calcular_qe (Fin 0.90) (Fin 76.2) (Fin 10.68) = Fin q /\
    calcular_qe (Fin (2 * 0.90)) (Fin (2 * 76.2)) (Fin (3 * 10.68))
    = Fin (2 * 2 ^ 2 * 3 * q) /\
    calcular_qe (Fin 0.90) (Fin (Ropp 76.2)) (Fin 10.68) = Fin q /\
    (0 < 0.90 -> 76.2 <> 0 -> 0 < 10.68 -> 0 < q).
Proof. apply (calcular_qe_scaling 0.90 76.2 10.68 2 2 3). Defined.

Lemma cos_inclinacao_bounds : 0.9657 < cos (15 * (PI / 180)) < 0.96593.
Proof.
  pose proof PI_bounds as [Hlo Hhi].
  set (a := 15 * (PI / 180)).
  assert (Ha : 0.26179 < a < 0.261842) by (unfold a; lra).
  destruct (pre_cos_bound a 0) as [Hl Hu]; try lra.
  unfold cos_approx, cos_term in Hl, Hu. simpl in Hl, Hu.
  split.
  - eapply Rlt_le_trans; [| exact Hl]. nra.
  - eapply Rle_lt_trans; [exact Hu |].
    assert (a * a < 0.06857) by nra.
    assert (0.06853 < a * a) by nra.
    nra.
Qed.

(** X12. The hole length shown on the page is the bench height plus the
    0.6 m of subdrilling, lengthened by the 15 degree inclination: between
    3.52 and 3.56 percent more. *)
Theorem altura_total_bounds (A densidade B : float64) (H : R) (fl li : Z) :
  - 0.6 < H ->
  exists L : R,
    Plano.altura_total (plano_de_fogo A densidade B (Fin H) fl li) = Fin L /\
    1.0352 * (H + 0.6) < L < 1.0356 * (H + 0.6).
Proof.
  intros HH. exists (Spec.hole_length_total H).
  split; [apply plano_altura_total |].
  unfold Spec.hole_length_total.
  pose proof cos_inclinacao_bounds as [Hlo Hhi].
  set (c := cos (15 * (PI / 180))) in *.
  assert (Hc : 0 < c) by lra.
  split.
  - apply Rmult_lt_reg_r with c; [assumption |].
    replace ((H + 0.6) / c * c) with (H + 0.6) by (field; lra). nra.
  - apply Rmult_lt_reg_r with c; [assumption |].
    replace ((H + 0.6) / c * c) with (H + 0.6) by (field; lra). nra.
Qed.

Lemma altura_total_bounds_witness :
  exists L : R,
    Plano.altura_total
      (plano_de_fogo (Fin 3) (Fin 0.90) (Fin 6.5) (Fin 10) 5 4) = Fin L /\
    1.0352 * (10 + 0.6) < L < 1.0356 * (10 + 0.6).
Proof.
  apply (altura_total_bounds (Fin 3) (Fin 0.90) (Fin 6.5) 10 5 4). lra.
Defined.
End ChargeAndLength.

(** ** Sieve openings and the curves on the page *)

Section Curves.
Local Open Scope R_scope.

Lemma Rpower_10_incr (x y : R) : x < y -> Rpower 10 x < Rpower 10 y.
Proof. intros Hxy. apply Rpower_lt; lra. Qed.


Lemma Rpower_10_4 : Rpower 10 4 = 10000.
Proof.
  replace 4 with (INR 4) by (rewrite INR_IZR_INZ; reflexivity).
  rewrite Rpower_pow by lra. simpl. lra.
Qed.

Lemma Rpower_10_0 : Rpower 10 0 = 1.
Proof. apply Rpower_O. lra. Qed.

(** X13. The sieve openings are log-spaced: each is the one before times
    the same factor [10 ^ (4/99)], so they increase strictly, and all lie
    between 1 and 10000. *)
Theorem x_mm_log_spaced (i : nat) :
  (i < 99)%nat ->
  exists a b : R,
    nth i x_mm NaN = Fin a /\
    nth (S i) x_mm NaN = Fin b /\
    b = a * Rpower 10 (4 / 99) /\
    1 <= a /\ a < b /\ b <= 10000.
Proof.
  intros Hi.
  exists (Rpower 10 (INR i * (4 / 99))), (Rpower 10 (INR (S i) * (4 / 99))).
  rewrite x_mm_samples, !nth_map_seq by lia.
  assert (Hi0 : 0 <= INR i) by apply pos_INR.
  assert (Hi99 : INR (S i) <= 99).
  { replace 99 with (INR 99) by (rewrite INR_IZR_INZ; reflexivity).
    apply le_INR. lia. }
  rewrite S_INR in *.
  repeat split.
  - rewrite <- Rpower_plus. f_equal. ring.
  - rewrite <- Rpower_10_0.
    destruct (Req_dec_T (INR i) 0) as [-> | Hn].
    + rewrite Rmult_0_l. apply Rle_refl.
    + left. apply Rpower_10_incr. nra.
  - apply Rpower_10_incr. lra.
  - rewrite <- Rpower_10_4.
    destruct (Req_dec_T (INR i + 1) 99) as [-> | Hn].
    + right. f_equal. lra.
    + left. apply Rpower_10_incr. lra.
Qed.

Lemma x_mm_log_spaced_witness :
  exists a b : R,
    nth 0 x_mm NaN = Fin a /\
    nth 1 x_mm NaN = Fin b /\
    b = a * Rpower 10 (4 / 99) /\
    1 <= a /\ a < b /\ b <= 10000.
Proof. apply (x_mm_log_spaced 0). lia. Defined.




End Curves.

(** ** The uniformity index at and beyond the widget bounds *)

Section UniformityIndex.
Local Open Scope R_scope.

Lemma uniformity_index_range (B H : R) :
  B = 6.5 \/ B = 3 -> 2 <= H <= 15 ->
  1 < Spec.uniformity_index B (Spec.spacing H B) 76.2 0.1
        (Spec.hole_length_total H) H < 3.
Proof.
  intros HB HH. unfold Spec.uniformity_index.
  pose proof cos_inclinacao_bounds as [Hc1 Hc2].
  set (r := sqrt (1 + Spec.spacing H B / B / 2)).
  set (q := Spec.hole_length_total H / H).
  assert (Hq : 1.04 <= q <= 1.35).
  { unfold q, Spec.hole_length_total.
    set (c := cos (15 * (PI / 180))) in *.
    replace ((H + 0.6) / c / H) with ((H + 0.6) / (c * H)) by (field; lra).
    assert (Hch : 0 < c * H) by nra.
    split.
    - apply Rmult_le_reg_r with (c * H); [assumption |].
      replace ((H + 0.6) / (c * H) * (c * H)) with (H + 0.6) by (field; lra).
      nra.
    - apply Rmult_le_reg_r with (c * H); [assumption |].
      replace ((H + 0.6) / (c * H) * (c * H)) with (H + 0.6) by (field; lra).
      nra. }
  assert (Hr : 1 <= r <= 1.35).
  { unfold r. split.
    - rewrite <- sqrt_1 at 1. apply sqrt_le_1_alt.
      assert (0 <= Spec.spacing H B / B).
      { apply Rlt_le, Rdiv_lt_0_compat; unfold Spec.spacing;
          destruct HB; subst; lra. }
      lra.
    - replace 1.35 with (sqrt (1.35 * 1.35)) by (apply sqrt_square; lra).
      apply sqrt_le_1_alt. unfold Spec.spacing.
      destruct HB; subst B; lra. }
  destruct HB; subst B.
  - assert (Hf : 1.0057 < 2.2 - 14 * (6.5 / 76.2) < 1.0058) by lra.
    assert (Hg : 0.9846 < 1 - 0.1 / 6.5 < 0.9847) by lra.
    set (f := 2.2 - 14 * (6.5 / 76.2)) in *.
    set (g := 1 - 0.1 / 6.5) in *.
    assert (1.0239 < g * q < 1.33) by nra.
    assert (1.0057 <= f * r <= 1.36) by nra.
    replace (f * r * (g * q)) with ((f * r) * (g * q)) by ring.
    nra.
  - assert (Hf : 1.6488 < 2.2 - 14 * (3 / 76.2) < 1.6489) by lra.
    assert (Hg : 0.9666 < 1 - 0.1 / 3 < 0.9667) by lra.
    set (f := 2.2 - 14 * (3 / 76.2)) in *.
    set (g := 1 - 0.1 / 3) in *.
    assert (1 < g * q < 1.3051) by nra.
    assert (1.6488 <= f * r <= 2.2261) by nra.
    replace (f * r * (g * q)) with ((f * r) * (g * q)) by ring.
    nra.
Qed.

(** X15. For both catalog burdens and every bench height in [[2, 15]] the
    uniformity index lies strictly between 1 and 3, so the clamp
    [max(n, 0.5)] left commented out in the source could never act. *)
Theorem indice_uniformidade_range
    (nome : string) (B : float64) (A densidade H : R) (fl li : Z) :
  In (nome, B) malha -> 2 <= H <= 15 ->
  exists n : R,
    n_do_plano (plano_de_fogo (Fin A) (Fin densidade) B (Fin H) fl li)
      B (Fin H) = Ok (Fin n) /\
    1 < n < 3 /\
    Rmax n 0.5 = n.
Proof.
  intros Hin HH.
  assert (HB : exists b : R, B = Fin b /\ (b = 6.5 \/ b = 3)).
  { destruct (malha_burdens _ _ Hin) as [-> | ->]; eexists; split;
      try reflexivity; auto. }
  destruct HB as (b & -> & Hb).
  assert (Hbpos : 0 < b) by (destruct Hb; lra).
  assert (Hq : 0 < Spec.spacing H b / b).
  { apply Rdiv_lt_0_compat; [unfold Spec.spacing; lra | assumption]. }
  pose proof (uniformity_index_range b H Hb HH) as Hr.
  eexists. split; [apply n_do_plano_fin; lra |].
  split; [exact Hr |]. apply Rmax_left. lra.
Qed.

Lemma indice_uniformidade_range_witness :
  exists n : R,
    n_do_plano (plano_de_fogo (Fin 3) (Fin 0.90) (Fin 3) (Fin 10) 5 4)
      (Fin 3) (Fin 10) = Ok (Fin n) /\
    1 < n < 3 /\
    Rmax n 0.5 = n.
Proof.
  apply (indice_uniformidade_range "Fechada" (Fin 3) 3 0.90 10 5 4).
  - right. left. reflexivity.
  - lra.
Defined.

Lemma is_integer_half : is_integer 0.5 = false.
Proof.
  unfold is_integer.
  assert (HI : Int_part 0.5 = 0%Z) by (symmetry; apply Int_part_spec; lra).
  rewrite HI. destruct (Req_dec_T 0.5 0); [lra | reflexivity].
Qed.

Lemma py_pow_half_neg (x : R) : x < 0 -> py_pow (Fin x) (Fin 0.5) = Complex.
Proof.
  intros Hx. unfold py_pow. rewrite is_integer_half. now repeat real_case.
Qed.

(** X16. How the uniformity index formula ends on finite arguments: a
    burden of 0 raises [ZeroDivisionError]; a non-zero burden with a
    negative value under the square root leaves the floats (Python's
    [** 0.5] returns a complex number); otherwise a float is returned. *)
Theorem indice_uniformidade_outcomes (B S H L : R) :
  B <> 0 ->
  indice_uniformidade (Fin 0) (Fin S) (Fin H) (Fin L)
  = Raise ZeroDivisionError /\
  (1 + S / B / 2 < 0 ->
   indice_uniformidade (Fin B) (Fin S) (Fin H) (Fin L) = Complex) /\
  (0 <= 1 + S / B / 2 ->
   exists n : float64,
     indice_uniformidade (Fin B) (Fin S) (Fin H) (Fin L) = Ok n).
Proof.
  intros HB. split; [apply indice_uniformidade_zero_burden |].
  unfold indice_uniformidade.
  rewrite (py_truediv_fin (Fin S) B), (py_truediv_fin (Fin 0.1) B)
    by assumption.
  rewrite (np_truediv_fin S B) by assumption.
  cbn [obind]. rewrite (np_truediv_fin (S / B) 2) by lra. cbn [fadd].
  split; intros Hr.
  - now rewrite py_pow_half_neg.
  - rewrite py_pow_half by assumption. cbn [obind]. eauto.
Qed.

Lemma indice_uniformidade_outcomes_witness :
  indice_uniformidade (Fin 0) (Fin 5) (Fin 10) (Fin 11)
  = Raise ZeroDivisionError /\
  (1 + 5 / (- 1) / 2 < 0 ->
   indice_uniformidade (Fin (- 1)) (Fin 5) (Fin 10) (Fin 11) = Complex) /\
  (0 <= 1 + 5 / (- 1) / 2 ->
   exists n : float64,
     indice_uniformidade (Fin (- 1)) (Fin 5) (Fin 10) (Fin 11) = Ok n).
Proof. apply (indice_uniformidade_outcomes (- 1) 5 10 11). lra. Defined.
End UniformityIndex.

(** ** A bench height of zero *)

Section ZeroBenchHeight.
Local Open Scope R_scope.

Lemma fmul_neg_PInf (x : R) : x < 0 -> fmul (Fin x) PInf = NInf.
Proof. intros Hx. unfold fmul, inf_like. now repeat real_case. Qed.

Lemma np_power_PInf_exp (b : float64) :
  b = PInf \/ (exists n : R, b = Fin n /\ 0 < n) -> np_power PInf b = PInf.
Proof.
  intros [-> | (n & -> & Hn)]; [reflexivity |].
  unfold np_power. now repeat real_case.
Qed.

Lemma np_power_zero_exp (b : float64) :
  b = PInf \/ (exists n : R, b = Fin n /\ 0 < n) ->
  np_power (Fin 0) b = Fin 0.
Proof.
  intros [-> | (n & -> & Hn)]; [| now apply np_power_zero].
  unfold np_power. rewrite Rabs_R0. now repeat real_case.
Qed.

(** What lines 123-124 give at a positive sieve opening when the mean
    fragment size is degenerate: 100 percent for [X50 = 0] and 0 percent
    for [X50 = +inf]. *)
Lemma passante_degenerate (x : R) (n : float64) :
  0 < x -> n = PInf \/ (exists r : R, n = Fin r /\ 0 < r) ->
  passante (Fin x) (Fin 0) n = Fin 100 /\
  passante (Fin x) PInf n = Fin 0.
Proof.
  intros Hx Hn. unfold passante. split.
  - rewrite np_truediv_zero by assumption.
    rewrite np_power_PInf_exp by assumption.
    rewrite fmul_neg_PInf by lra. cbn. f_equal. ring.
  - cbn [np_truediv]. rewrite np_power_zero_exp by assumption.
    cbn. rewrite Rmult_0_r, exp_0. f_equal. ring.
Qed.

Lemma x_mm_positive (v : float64) :
  In v x_mm -> exists x : R, v = Fin x /\ 0 < x.
Proof.
  rewrite x_mm_samples. intros Hin. apply in_map_iff in Hin.
  destruct Hin as (i & <- & _). eexists. split; [reflexivity |].
  apply Rpower_pos.
Qed.

(** X17. A bench height of 0 with a catalog burden raises nothing
    anywhere: the volume per hole is 0, NumPy's divisions give a powder
    factor of [+inf] and a uniformity index of [+inf], the mean fragment
    size is 0, the script runs to its end, and every point of both curves
    is at 100 percent. *)
Theorem zero_bench_height (nome : string) (B : float64) (A densidade : R)
    (fl li : Z) :
  In (nome, B) malha -> 0 < A -> 0 < densidade ->
  let p := plano_de_fogo (Fin A) (Fin densidade) B (Fin 0) fl li in
  Plano.K p = PInf /\
  Plano.X50_mm p = Fin 0 /\
  n_do_plano p B (Fin 0) = Ok PInf /\
  simulador (Fin A) B (Fin densidade) (Fin 0) fl li []
  = (pagina_completa (Fin A) B (Fin 0) fl li p PInf, Ok tt) /\
  Forall (fun s => Forall (fun pt => snd pt = Fin 100) (pontos s))
    (curvas (Fin A) (Plano.K p) (Plano.Qe p) (Fin 0) PInf).
Proof.
  intros Hin HA Hd p.
  assert (HB : exists b : R, B = Fin b /\ (b = 6.5 \/ b = 3)).
  { destruct (malha_burdens _ _ Hin) as [-> | ->]; eexists; split;
      try reflexivity; auto. }
  destruct HB as (b & -> & Hb).
  assert (Hb0 : 0 < b) by (destruct Hb; lra).
  set (L := Spec.hole_length_total 0).
  assert (HL : 0 < L) by (apply hole_length_total_pos; lra).
  set (Qe := Spec.charge_mass densidade 76.2 L).
  assert (HQ : 0 < Qe) by (apply charge_mass_pos; lra).
  assert (EL : Plano.altura_total p = Fin L) by apply plano_altura_total.
  assert (EQ : Plano.Qe p = Fin Qe).
  { unfold p, plano_de_fogo in EL |- *. cbn [Plano.altura_total Plano.Qe] in *.
    rewrite EL. unfold diametro. apply calcular_qe_fin. }
  assert (EK : Plano.K p = PInf).
  { unfold p, plano_de_fogo in EQ |- *. cbn [Plano.Qe Plano.K] in *.
    rewrite EQ, calcular_espacamento_fin. cbn [fmul].
    replace (Spec.spacing 0 b * b * 0) with 0 by ring.
    now apply np_truediv_zero. }
  assert (EX : Plano.X50_mm p = Fin 0).
  { unfold p, plano_de_fogo in EQ, EK |- *.
    cbn [Plano.Qe Plano.K Plano.X50_mm] in *.
    rewrite EK, EQ. unfold calcular_x50.
    rewrite np_power_PInf_neg by lra. rewrite np_power_pos by assumption.
    cbn [fmul]. f_equal. ring. }
  assert (En : n_do_plano p (Fin b) (Fin 0) = Ok PInf).
  { unfold n_do_plano. rewrite EL. change (Plano.S p) with (Fin (Spec.spacing 0 b)).
    unfold indice_uniformidade, diametro.
    rewrite (np_truediv_fin b 76.2) by lra.
    rewrite (py_truediv_fin (Fin (Spec.spacing 0 b)) b) by lra.
    rewrite np_truediv_fin by lra. cbn [obind].
    rewrite np_truediv_fin by lra. cbn [fadd].
    assert (Hq : 0 < Spec.spacing 0 b / b).
    { apply Rdiv_lt_0_compat; [unfold Spec.spacing; lra | assumption]. }
    rewrite py_pow_half by lra. cbn [obind].
    rewrite py_truediv_fin by lra. rewrite np_truediv_fin by lra.
    cbn [obind]. rewrite np_truediv_zero by assumption.
    cbn [fsub fopp fadd fmul].
    assert (H1 : 0 < 1 + - (0.1 / b)).
    { assert (0.1 / b < 1); [| lra].
      apply Rmult_lt_reg_r with b; [assumption |].
      replace (0.1 / b * b) with 0.1 by (field; lra). destruct Hb; lra. }
    assert (H2 : 0 < (2.2 + - (14 * (b / 76.2)))
                     * sqrt (1 + Spec.spacing 0 b / b / 2)).
    { apply Rmult_lt_0_compat; [destruct Hb; subst b; lra |].
      apply sqrt_lt_R0. lra. }
    unfold inf_like. now repeat real_case. }
  repeat split; try assumption.
  - now apply simulador_ok.
  - rewrite EK, EQ. apply Forall_forall. intros s Hs.
    destruct (in_curvas _ _ _ _ _ _ Hs) as (item & _ & ->).
    rewrite pontos_curva. apply Forall_forall. intros [x y] Hxy.
    apply in_combine_r in Hxy. apply in_map_iff in Hxy.
    destruct Hxy as (v & <- & Hv).
    destruct (x_mm_positive v Hv) as (xr & -> & Hxr).
    cbn [snd]. unfold calcular_x50.
    rewrite np_power_PInf_neg by lra. rewrite np_power_pos by assumption.
    cbn [fmul].
    replace (A * 0 * Rpower Qe (1 / 6) * 10) with 0 by ring.
    apply passante_degenerate; auto.
Qed.

Lemma zero_bench_height_witness :
  let p := plano_de_fogo (Fin 3) (Fin 0.90) (Fin 6.5) (Fin 0) 5 4 in
  Plano.K p = PInf /\
  Plano.X50_mm p = Fin 0 /\
  n_do_plano p (Fin 6.5) (Fin 0) = Ok PInf /\
  simulador (Fin 3) (Fin 6.5) (Fin 0.90) (Fin 0) 5 4 []
  = (pagina_completa (Fin 3) (Fin 6.5) (Fin 0) 5 4 p PInf, Ok tt) /\
  Forall (fun s => Forall (fun pt => snd pt = Fin 100) (pontos s))
    (curvas (Fin 3) (Plano.K p) (Plano.Qe p) (Fin 0) PInf).
Proof.
  apply (zero_bench_height "Aberta" (Fin 6.5) 3 0.90 5 4).
  - left. reflexivity.
  - lra.
  - lra.
Defined.
End ZeroBenchHeight.
